(** * Lanes profiles: permission checks, validation, persistence, lane tagging

    A shallow embedding of [profile.go] (package [lanes]): the [Profile]
    object, the permission-hardening checks on locally stored credential
    files, profile validation with its region fallback, persistence to disk,
    and the association of fetched EC2 instances with per-lane SSH settings.

    Go values are modelled as follows.
    - [string] is [string]; [os.FileMode] (a [uint32]) is a [Z], with the
      masks and shifts of the source written with [Z.land] and [Z.shiftr].
    - The [error] interface is [option error]: [None] is [nil].
    - A Go map is a [gmap]; a map of pointers has [option] values, so that
      the two-result lookup [v, ok = m[k]] can be told apart from a stored
      [nil].
    - Calls into the operating system and into libraries ([os], [ioutil],
      [filepath], [yaml], the EC2 fetch) are fields of two interfaces,
      [FileSystem] and [Externals]; the functions of [profile.go] are
      written once, over any implementation of them. [MemFS] is a small
      in-memory implementation on which the functions can be run. *)

From Stdlib Require Import ZArith Lia Ascii String.
From stdpp Require Import base option list gmap strings.

Local Open Scope string_scope.
Local Open Scope Z_scope.

(** ** Go errors *)

(** The error values that [profile.go] creates or passes on.
    [fmt.Errorf] is kept as its format string with its arguments, so that no
    formatting has to be modelled; [MultiError] is [*multierror.Error], whose
    only field is the slice [Errors]. *)
#[warnings="-register-all"]
Inductive error : Type :=
  | PathError (op path reason : string)
  | Sentinel (name : string)
  | Errorf (format : string) (args : list fmtarg)
  | MultiError (Errors : list error)
with fmtarg : Type :=
  | AString (s : string)
  | AError (e : error).

(** A call that returns [(value, error)] and whose value is meaningless when
    the error is set. *)
Inductive result (A : Type) : Type :=
  | Ok (a : A)
  | Err (e : error).
Arguments Ok {A} a.
Arguments Err {A} e.

Module multierror.

(** The errors one argument of [Append] contributes: those of a
    [*multierror.Error] are spliced in, a [nil] is skipped, any other
    error is added as it is. *)
Definition flatten1 (e : option error) : list error :=
  match e with
  | None => []
  | Some (MultiError es) => es
  | Some e => [e]
  end.

(** [multierror.Append(err, errs...)]: the result is always a
    [*multierror.Error]. When [err] already is one, the flattened [errs]
    are appended to its [Errors]; otherwise a new one is built from [err]
    (if not [nil]) followed by [errs]. Both cases give the same slice. *)
Definition Append (err : option error) (errs : list (option error)) : error :=
  MultiError (flatten1 err ++ concat (flatten1 <$> errs)).

End multierror.

(** ** Permission bits *)

(** The octal literal [0ugo] of the source. *)
Definition oct3 (u g o : Z) : Z := (u * 8 + g) * 8 + o.

(** The three permission triplets of a mode, defined arithmetically. *)
Definition user_bits (mode : Z) : Z := (mode / 64) mod 8.
Definition group_bits (mode : Z) : Z := (mode / 8) mod 8.
Definition world_bits (mode : Z) : Z := mode mod 8.

(** The owner's read bit, [0400]. *)
Definition owner_can_read (mode : Z) : bool := Z.testbit mode 8.

(** ** The file system *)

(** [os.FileInfo]: only [Mode()] is used. *)
Record FileInfo : Type := { Mode : Z }.

(** The calls [profile.go] makes into [os] and [ioutil], over a state [FS]
    of the file system. *)
Class FileSystem : Type := {
  FS : Type;
  os_Stat : string → FS → result FileInfo;
  os_MkdirAll : string → Z → FS → FS * option error;
  ioutil_WriteFile : string → list Byte.byte → Z → FS → FS * option error;
  ioutil_ReadFile : string → FS → result (list Byte.byte);
}.

Section Permissions.
Context `{fsys : FileSystem}.

(** [CheckPermissions(path) (fatal bool, result error)]. *)
Definition CheckPermissions (path : string) (fs : FS) : bool * option error :=
  let fatal := false in
  let result : option error := None in
  match os_Stat path fs with
  | Err err =>
      let fatal := true in
      let result := Some (multierror.Append result [Some err]) in
      (fatal, result)
  | Ok pStats =>
      let mode := Mode pStats in
      (* check user permissions *)
      let '(fatal, result) :=
        if Z.shiftr (Z.land mode (oct3 7 0 0)) 6 <=? 3
        then (true,
              Some (multierror.Append result
                      [Some (Errorf "%s is not user-accessible" [AString path])]))
        else (fatal, result) in
      (* check group permissions *)
      let result :=
        if negb (Z.shiftr (Z.land mode (oct3 0 7 0)) 3 =? 0)
        then Some (multierror.Append result
                     [Some (Errorf "%s is group-accessible" [AString path])])
        else result in
      (* check world permissions *)
      let result :=
        if negb (Z.land mode (oct3 0 0 7) =? 0)
        then Some (multierror.Append result
                     [Some (Errorf "%s is world-accessible" [AString path])])
        else result in
      (fatal, result)
  end.

End Permissions.


(** ** The data model *)

Module ssh.

(** Modelled from the spec: package [ssh] is declared outside the files at
    hand. The SSH settings of one lane: identity file path, optional
    single tunnel spec, optional list of tunnel specs (the fields that
    [GetSampleProfile] fills in). *)
Record Profile : Type := {
  Identity : string;
  Tunnel : string;
  Tunnels : list string;
}.

(** Modelled from the spec: the mapping of lane name to SSH settings,
    [Mods map[string]*ssh.Profile]. A stored [nil] pointer is [Some None]. *)
Record Config : Type := { Mods : gmap string (option Profile) }.

End ssh.

(** Modelled from the spec: the global configuration is declared outside the
    files at hand; [Validate] reads only its region. *)
Record Config : Type := { cfg_Region : string }.

Record Profile : Type := {
  AWSAccessKeyId : string;
  AWSSecretAccessKey : string;
  Region : string;
  SSH : ssh.Config;
  global : option Config;
  overwrite : bool;
}.

(** The zero value that [new(Profile)] points to. *)
Definition new_Profile : Profile :=
  {| AWSAccessKeyId := ""; AWSSecretAccessKey := ""; Region := "";
     SSH := {| ssh.Mods := ∅ |}; global := None; overwrite := false |}.

Definition set_Region (v : string) (p : Profile) : Profile :=
  {| AWSAccessKeyId := AWSAccessKeyId p; AWSSecretAccessKey := AWSSecretAccessKey p;
     Region := v; SSH := SSH p; global := global p; overwrite := overwrite p |}.

Definition set_global (v : option Config) (p : Profile) : Profile :=
  {| AWSAccessKeyId := AWSAccessKeyId p; AWSSecretAccessKey := AWSSecretAccessKey p;
     Region := Region p; SSH := SSH p; global := v; overwrite := overwrite p |}.

Definition set_overwrite (v : bool) (p : Profile) : Profile :=
  {| AWSAccessKeyId := AWSAccessKeyId p; AWSSecretAccessKey := AWSSecretAccessKey p;
     Region := Region p; SSH := SSH p; global := global p; overwrite := v |}.

(** Modelled from the spec: [Server] is declared outside the files at hand.
    EC2 instance attributes plus a derived lane tag and an attached SSH
    profile reference. *)
Record Server : Type := {
  Attributes : list (string * string);
  Lane : string;
  profile : option ssh.Profile;
}.

Definition set_profile (v : option ssh.Profile) (s : Server) : Server :=
  {| Attributes := Attributes s; Lane := Lane s; profile := v |}.

(** Modelled from the spec: the sentinel errors are declared outside the
    files at hand; they are two distinct error values. *)
Definition ErrMissingAccessKey : error := Sentinel "ErrMissingAccessKey".
Definition ErrMissingSecretKey : error := Sentinel "ErrMissingSecretKey".

(** ** The process: state, output, exit *)

(** One call of [fmt.Printf]: the format string and its arguments. *)
Inductive printarg : Type :=
  | PString (s : string)
  | PError (e : error)
  | PServer (s : Server).

Inductive output : Type :=
  | Printf (format : string) (args : list printarg).

(** A [*Server]. Dereferencing an address that holds no server stands for
    dereferencing [nil]. *)
Abbreviation ptr := positive (only parsing).

(** How a call ends: it returns, the process exits ([os.Exit]), or it
    panics. *)
Inductive outcome (A : Type) : Type :=
  | Returned (a : A)
  | Exited (code : Z)
  | Panicked.
Arguments Returned {A} a.
Arguments Exited {A} code.
Arguments Panicked {A}.

Section Process.
Context `{fsys : FileSystem}.

(** What the functions of [profile.go] read and write besides their
    arguments: the file system, the environment variables, the package
    variable [config], the servers that [*Server] pointers point to, and
    what has been printed to standard output. *)
Record World : Type := {
  w_fs : FS;
  w_env : gmap string string;
  w_config : option Config;
  w_heap : gmap positive Server;
  w_out : list output;
}.

Definition M (A : Type) : Type := World → outcome A * World.

#[export] Instance M_ret : MRet M := λ A a w, (Returned a, w).

#[export] Instance M_bind : MBind M := λ A B f m w,
  match m w with
  | (Returned a, w1) => f a w1
  | (Exited code, w1) => (Exited code, w1)
  | (Panicked, w1) => (Panicked, w1)
  end.

Definition set_fs (fs : FS) (w : World) : World :=
  {| w_fs := fs; w_env := w_env w; w_config := w_config w;
     w_heap := w_heap w; w_out := w_out w |}.
Definition set_heap (h : gmap positive Server) (w : World) : World :=
  {| w_fs := w_fs w; w_env := w_env w; w_config := w_config w;
     w_heap := h; w_out := w_out w |}.
Definition add_out (o : output) (w : World) : World :=
  {| w_fs := w_fs w; w_env := w_env w; w_config := w_config w;
     w_heap := w_heap w; w_out := w_out w ++ [o] |}.

Definition get_fs : M FS := λ w, (Returned (w_fs w), w).
Definition get_config : M (option Config) := λ w, (Returned (w_config w), w).
Definition fmt_Printf (format : string) (args : list printarg) : M unit :=
  λ w, (Returned (), add_out (Printf format args) w).
Definition os_Exit {A} (code : Z) : M A := λ w, (Exited code, w).

(** [os.Getenv]: the empty string when the variable is not set. *)
Definition os_Getenv (key : string) : M string :=
  λ w, (Returned (default "" (w_env w !! key)), w).

Definition Stat (path : string) : M (result FileInfo) :=
  λ w, (Returned (os_Stat path (w_fs w)), w).
Definition MkdirAll (path : string) (perm : Z) : M (option error) :=
  λ w, let '(fs, err) := os_MkdirAll path perm (w_fs w) in
       (Returned err, set_fs fs w).
Definition ioWriteFile (path : string) (data : list Byte.byte) (perm : Z)
    : M (option error) :=
  λ w, let '(fs, err) := ioutil_WriteFile path data perm (w_fs w) in
       (Returned err, set_fs fs w).
Definition ioReadFile (path : string) : M (result (list Byte.byte)) :=
  λ w, (Returned (ioutil_ReadFile path (w_fs w)), w).

(** Reading and writing through a [*Server]. *)
Definition load (p : ptr) : M Server :=
  λ w, match w_heap w !! p with
       | Some s => (Returned s, w)
       | None => (Panicked, w)
       end.
Definition store (p : ptr) (s : Server) : M unit :=
  λ w, (Returned (), set_heap (<[p := s]> (w_heap w)) w).

End Process.

(** The libraries and the package-level declarations that [profile.go] uses
    and that are not part of it: [filepath], [yaml], the constant
    [CONFIG_DIR], and the package-level [FetchServersBy], which queries EC2
    and allocates the servers it returns. *)
Class Externals `{FileSystem} : Type := {
  CONFIG_DIR : string;
  filepath_Join : string → string → string;
  filepath_Dir : string → string;
  yaml_Marshal : Profile → list Byte.byte * option error;
  yaml_Unmarshal : list Byte.byte → Profile → Profile * option error;
  EC2 : Type;
  DescribeInstancesInput : Type;
  pkg_FetchServersBy : EC2 → option DescribeInstancesInput → M (list positive * option error);
}.

(** ** The functions of [profile.go] *)

Section Lanes.
Context `{fsys : FileSystem} `{ext : !Externals}.

(** [CheckProfilePermissions(path)]: looks for permissions that are too
    permissive for Lanes profiles. *)
Definition CheckProfilePermissions (path : string) : M unit :=
  fs ← get_fs;
  let result : option error := None in
  (* check the directory first *)
  let '(dFatal, dErr) := CheckPermissions (filepath_Dir path) fs in
  let result :=
    match dErr with
    | Some _ => Some (multierror.Append dErr [])
    | None => result
    end in
  (* check the actual profile *)
  let '(pFatal, pErr) := CheckPermissions path fs in
  let result :=
    match pErr with
    | Some _ => Some (multierror.Append pErr [])
    | None => result
    end in
  let prefix := "WARNING" in
  let fatal := dFatal || pFatal in
  let prefix := if fatal then "ERROR" else prefix in
  _ ← match result with
      | Some r =>
          fmt_Printf "%s: checking profile permissions, %s\n\n"
            [PString prefix; PError r]
      | None => mret ()
      end;
  if fatal then os_Exit 1 else mret ().

(** [GetProfilePath(name, checkPerms)]: the path of the file that is
    expected to hold the configuration of the named profile. *)
Definition GetProfilePath (name : string) (checkPerms : bool) : M string :=
  let path := filepath_Join CONFIG_DIR (name ++ ".yml") in
  _ ← (if checkPerms then CheckProfilePermissions path else mret ());
  mret path.

(** [SetOverwrite(value)]. *)
Definition SetOverwrite (this : Profile) (value : bool) : Profile :=
  set_overwrite value this.

(** [Validate()]: the receiver is passed in and handed back, next to the
    returned error. *)
Definition Validate (this : Profile) : M (Profile * option error) :=
  if String.eqb (AWSAccessKeyId this) "" then mret (this, Some ErrMissingAccessKey)
  else if String.eqb (AWSSecretAccessKey this) "" then mret (this, Some ErrMissingSecretKey)
  else
    match global this with
    | Some g =>
        let this :=
          if String.eqb (Region this) "" then set_Region (cfg_Region g) this
          else this in
        mret (this, None)
    | None =>
        v ← os_Getenv "LANES_REGION";
        let this := set_Region v this in
        mret (this, None)
    end.

(** [LoadProfileBytes(in)]. The returned [prof] is never [nil]. *)
Definition LoadProfileBytes (input : list Byte.byte)
    : M (option Profile * option error) :=
  let prof := new_Profile in
  let '(prof, err) := yaml_Unmarshal input prof in
  match err with
  | Some e =>
      mret (Some prof, Some (Errorf "unable to parse lane profile: %s" [AError e]))
  | None =>
      (* allow the profile to access global configuration values *)
      config ← get_config;
      let prof := set_global config prof in
      r ← Validate prof;
      let '(prof, err) := r in
      match err with
      | Some e => mret (Some prof, Some (Errorf "invalid profile: %s" [AError e]))
      | None => mret (Some prof, None)
      end
  end.

(** [LoadProfile(name)]. *)
Definition LoadProfile (name : string) : M (option Profile * option error) :=
  path ← GetProfilePath name true;
  r ← ioReadFile path;
  match r with
  | Err e => mret (None, Some (Errorf "unable to read profile: %s" [AError e]))
  | Ok input => LoadProfileBytes input
  end.

(** The body of the loop of the method [FetchServersBy]. *)
Definition tag_server (this : Profile) (svr : ptr) : M unit :=
  s ← load svr;
  let '(p, exists_) :=
    match ssh.Mods (SSH this) !! Lane s with
    | Some v => (v, true)
    | None => (None, false)
    end in
  let s := set_profile p s in
  _ ← store svr s;
  if negb exists_
  then fmt_Printf "WARNING: no profile found for %s in lane %q\n"
         [PServer s; PString (Lane s)]
  else mret ().

Fixpoint tag_servers (this : Profile) (servers : list ptr) : M unit :=
  match servers with
  | [] => mret ()
  | svr :: rest => _ ← tag_server this svr; tag_servers this rest
  end.

(** The method [FetchServersBy(svc, input)]: each instance is tagged with
    the SSH profile to access it. *)
Definition FetchServersBy (this : Profile) (svc : EC2)
    (input : option DescribeInstancesInput) : M (list ptr * option error) :=
  r ← pkg_FetchServersBy svc input;
  let '(servers, err) := r in
  match err with
  | Some e => mret (servers, Some e)
  | None =>
      _ ← tag_servers this servers;
      mret (servers, None)
  end.

(** [FetchServers(svc)]. *)
Definition FetchServers (this : Profile) (svc : EC2) : M (list ptr * option error) :=
  FetchServersBy this svc None.

(** [WriteBytes()]. *)
Definition WriteBytes (this : Profile) : list Byte.byte * option error :=
  yaml_Marshal this.

(** [WriteFile(name, dest)]. *)
Definition WriteFile (this : Profile) (name dest : string) : M (option error) :=
  st ← Stat dest;
  (* don't overwrite existing profiles without a flag being set to allow it *)
  if match st with Ok _ => true | Err _ => false end && negb (overwrite this)
  then mret (Some (Errorf "profile %q already exists" [AString name]))
  else
    let '(out, err) := WriteBytes this in
    match err with
    | Some e => mret (Some e)
    | None =>
        (* make sure the destination directory exists *)
        err ← MkdirAll (filepath_Dir dest) (oct3 7 0 0);
        match err with
        | Some e => mret (Some e)
        | None =>
            err ← ioWriteFile dest out (oct3 6 0 0);
            match err with
            | Some e => mret (Some e)
            | None =>
                _ ← fmt_Printf "Profile %q written to %s\n"
                      [PString name; PString dest];
                mret None
            end
        end
    end.

(** [Write(name)]. *)
Definition Write (this : Profile) (name : string) : M (option error) :=
  path ← GetProfilePath name false;
  WriteFile this name path.

End Lanes.
(** ** An in-memory file system *)

Module MemFS.

(** A file ([n_data] is its contents) or a directory ([n_data] is [None]).
    [n_mode] is the whole [FileMode]: a directory has [os.ModeDir] set. *)
Record node : Type := { n_mode : Z; n_data : option (list Byte.byte) }.

Definition ModeDir : Z := 2 ^ 31.

Definition dir_node (perm : Z) : node :=
  {| n_mode := ModeDir + perm; n_data := None |}.
Definition file_node (perm : Z) (data : list Byte.byte) : node :=
  {| n_mode := perm; n_data := Some data |}.

Definition is_slash (c : Ascii.ascii) : bool := Ascii.eqb c "/"%char.

(** What precedes the last slash of [p], if [p] has one. *)
Fixpoint before_last_slash (p : string) : option string :=
  match p with
  | EmptyString => None
  | String c r =>
      match before_last_slash r with
      | Some d => Some (String c d)
      | None => if is_slash c then Some EmptyString else None
      end
  end.

Definition Dir (p : string) : string :=
  match before_last_slash p with
  | Some EmptyString => "/"
  | Some d => d
  | None => "."
  end.

Definition Join (a b : string) : string := a ++ "/" ++ b.

Definition Stat (p : string) (fs : gmap string node) : result FileInfo :=
  match fs !! p with
  | Some n => Ok {| Mode := n_mode n |}
  | None => Err (PathError "stat" p "no such file or directory")
  end.

Fixpoint MkdirAll_fuel (fuel : nat) (p : string) (perm : Z)
    (fs : gmap string node) : gmap string node * option error :=
  match fs !! p with
  | Some n =>
      match n_data n with
      | None => (fs, None)
      | Some _ => (fs, Some (PathError "mkdir" p "not a directory"))
      end
  | None =>
      match fuel with
      | O => (<[p := dir_node perm]> fs, None)
      | S fuel' =>
          if String.eqb (Dir p) p then (<[p := dir_node perm]> fs, None)
          else
            match MkdirAll_fuel fuel' (Dir p) perm fs with
            | (fs1, Some e) => (fs1, Some e)
            | (fs1, None) => (<[p := dir_node perm]> fs1, None)
            end
      end
  end.

Definition MkdirAll (p : string) (perm : Z) (fs : gmap string node) :=
  MkdirAll_fuel (String.length p) p perm fs.

Definition WriteFile (p : string) (data : list Byte.byte) (perm : Z)
    (fs : gmap string node) : gmap string node * option error :=
  match fs !! p with
  | Some n =>
      match n_data n with
      | Some _ => (<[p := {| n_mode := n_mode n; n_data := Some data |}]> fs, None)
      | None => (fs, Some (PathError "open" p "is a directory"))
      end
  | None =>
      match n_data <$> fs !! Dir p with
      | Some None => (<[p := file_node perm data]> fs, None)
      | _ => (fs, Some (PathError "open" p "no such file or directory"))
      end
  end.

Definition ReadFile (p : string) (fs : gmap string node) : result (list Byte.byte) :=
  match fs !! p with
  | Some n =>
      match n_data n with
      | Some data => Ok data
      | None => Err (PathError "read" p "is a directory")
      end
  | None => Err (PathError "open" p "no such file or directory")
  end.

Definition file_system : FileSystem := {|
  FS := gmap string node;
  os_Stat := Stat;
  os_MkdirAll := MkdirAll;
  ioutil_WriteFile := WriteFile;
  ioutil_ReadFile := ReadFile;
|}.

End MemFS.


(** ** A simulated installation *)

(** An implementation of [Externals] over [MemFS], and a few files, profiles
    and servers to run the functions on. *)
Module Sim.

#[local] Existing Instance MemFS.file_system.

(** A stand-in for [yaml.Marshal] that writes the three scalar fields. *)
Definition Marshal (p : Profile) : list Byte.byte * option error :=
  (list_byte_of_string
     ("aws_access_key_id: " ++ AWSAccessKeyId p ++ "; " ++
      "aws_secret_access_key: " ++ AWSSecretAccessKey p ++ "; " ++
      "region: " ++ Region p),
   None).

(** A stand-in for [yaml.Unmarshal] that reads every input as the empty
    document: the profile is left as it was. *)
Definition Unmarshal (input : list Byte.byte) (p : Profile)
    : Profile * option error := (p, None).

(** A stand-in for the EC2 query: the service is the list of servers it
    answers with, already allocated. *)
Definition Fetch (svc : list positive) (input : option unit)
    : M (list positive * option error) := mret (svc, None).

Definition externals : Externals := {|
  CONFIG_DIR := "/home/ada/.lanes";
  filepath_Join := MemFS.Join;
  filepath_Dir := MemFS.Dir;
  yaml_Marshal := Marshal;
  yaml_Unmarshal := Unmarshal;
  EC2 := list positive;
  DescribeInstancesInput := unit;
  pkg_FetchServersBy := Fetch;
|}.

Definition lanes_dir : string := "/home/ada/.lanes".
Definition prod_yml : string := "/home/ada/.lanes/prod.yml".
Definition dev_yml : string := "/home/ada/.lanes/dev.yml".
Definition locked_yml : string := "/home/ada/.lanes/locked.yml".

(** A config directory [drwxr-xr-x] with three profiles: [prod.yml] is
    [-rw-r--r--], [dev.yml] is [-rw-------], [locked.yml] is [--wx------]. *)
Definition fs0 : gmap string MemFS.node :=
  <[lanes_dir := MemFS.dir_node (oct3 7 5 5)]>
    (<[prod_yml := MemFS.file_node (oct3 6 4 4) []]>
       (<[dev_yml := MemFS.file_node (oct3 6 0 0) []]>
          (<[locked_yml := MemFS.file_node (oct3 3 0 0) []]> ∅))).

(** The same with the directory hardened to [drwx------]. *)
Definition fs1 : gmap string MemFS.node :=
  <[lanes_dir := MemFS.dir_node (oct3 7 0 0)]> fs0.

(** A home directory in which Lanes has never been run. *)
Definition fs_fresh : gmap string MemFS.node :=
  <["/home/ada" := MemFS.dir_node (oct3 7 5 5)]>
    (<["/home" := MemFS.dir_node (oct3 7 5 5)]>
       (<["/" := MemFS.dir_node (oct3 7 5 5)]> ∅)).

Definition dev_ssh : ssh.Profile :=
  {| ssh.Identity := "~/.ssh/id_rsa_dev"; ssh.Tunnel := "";
     ssh.Tunnels := ["8080:127.0.0.1:80"; "3306:127.0.0.1:3306"] |}.
Definition prod_ssh : ssh.Profile :=
  {| ssh.Identity := "~/.ssh/id_rsa_prod"; ssh.Tunnel := ""; ssh.Tunnels := [] |}.

Definition lanes : ssh.Config :=
  {| ssh.Mods := <["dev" := Some dev_ssh]> (<["prod" := Some prod_ssh]> ∅) |}.

Definition web1 : Server :=
  {| Attributes := [("Name", "web1")]; Lane := "dev"; profile := None |}.
Definition db1 : Server :=
  {| Attributes := [("Name", "db1")]; Lane := "qa"; profile := None |}.

Definition heap0 : gmap positive Server := <[1%positive := web1]> (<[2%positive := db1]> ∅).

Definition world (fs : gmap string MemFS.node) (config : option Config) : World :=
  {| w_fs := fs;
     w_env := <["LANES_REGION" := "us-east-1"]> ∅;
     w_config := config;
     w_heap := heap0;
     w_out := [] |}.

Definition profile_with (key secret region : string) (g : option Config) : Profile :=
  {| AWSAccessKeyId := key; AWSSecretAccessKey := secret; Region := region;
     SSH := lanes; global := g; overwrite := false |}.

End Sim.

(** ** The specification's wording of the region fallback *)

(** The region that the order "profile, then global config, then environment
    variable" selects: the profile's own region when it is not empty,
    otherwise the global config's region when that is set, otherwise the
    value of [LANES_REGION]. Stated from the specification, to be compared
    with what [Validate] leaves in the profile. *)
Definition region_by_fallback_order (this : Profile) (env : gmap string string) : string :=
  if negb (String.eqb (Region this) "") then Region this
  else
    match global this with
    | Some g =>
        if negb (String.eqb (cfg_Region g) "") then cfg_Region g
        else default "" (env !! "LANES_REGION")
    | None => default "" (env !! "LANES_REGION")
    end.

(** ** Notions used to state the lane tagging *)

(** The SSH profile that the lane map of a profile holds for a lane, [nil]
    when it holds none. *)
Definition lane_profile (this : Profile) (lane : string) : option ssh.Profile :=
  default None (ssh.Mods (SSH this) !! lane).

(** A server with the SSH profile of its lane attached. *)
Definition tagged (this : Profile) (s : Server) : Server :=
  set_profile (lane_profile this (Lane s)) s.

(** The warning that is due for the server a pointer points to: one when the
    server's lane has no entry in the lane map, none otherwise. *)
Definition lane_warning (this : Profile) (heap : gmap positive Server) (p : positive)
    : option output :=
  s ← heap !! p;
  match ssh.Mods (SSH this) !! Lane s with
  | Some _ => None
  | None =>
      Some (Printf "WARNING: no profile found for %s in lane %q\n"
              [PServer (set_profile None s); PString (Lane s)])
  end.

(** ** The environment variables of the process *)

Section Environment.
Context `{fsys : FileSystem} `{ext : !Externals}.

Definition set_env (env : gmap string string) (w : World) : World :=
  {| w_fs := w_fs w; w_env := env; w_config := w_config w;
     w_heap := w_heap w; w_out := w_out w |}.

(** Whether the byte [c] occurs in [s]. *)
Fixpoint has_byte (c : ascii) (s : string) : bool :=
  match s with
  | EmptyString => false
  | String c' r => Ascii.eqb c' c || has_byte c r
  end.

Definition NUL : ascii := Ascii.zero.

(** [os.Setenv(key, value)]: refused, with the environment left as it is,
    when the key is empty or holds [=] or a NUL byte, or when the value
    holds a NUL byte. *)
Definition os_Setenv (key value : string) : M (option error) :=
  λ w,
    if String.eqb key "" || has_byte "="%char key || has_byte NUL key
       || has_byte NUL value
    then (Returned (Some (Sentinel "setenv: invalid argument")), w)
    else (Returned None, set_env (<[key := value]> (w_env w)) w).

(** [os.Unsetenv(key)]. *)
Definition os_Unsetenv (key : string) : M (option error) :=
  λ w, (Returned None, set_env (delete key (w_env w)) w).

(** [Activate()]: the errors of [os.Setenv] are not looked at. *)
Definition Activate (this : Profile) : M unit :=
  _ ← os_Setenv "AWS_ACCESS_KEY_ID" (AWSAccessKeyId this);
  _ ← os_Setenv "AWS_SECRET_ACCESS_KEY" (AWSSecretAccessKey this);
  mret ().

(** [Deactivate()]. *)
Definition Deactivate (this : Profile) : M unit :=
  _ ← os_Unsetenv "AWS_ACCESS_KEY_ID";
  _ ← os_Unsetenv "AWS_SECRET_ACCESS_KEY";
  mret ().

End Environment.

(** [GetSampleProfile()]: a sample profile that is easy to use as an
    example. *)
Definition GetSampleProfile : Profile :=
  {| AWSAccessKeyId := ""; AWSSecretAccessKey := ""; Region := "";
     SSH :=
       {| ssh.Mods :=
            <["dev" :=
                Some {| ssh.Identity := "~/.ssh/id_rsa_dev";
                        ssh.Tunnel := "";
                        ssh.Tunnels := ["8080:127.0.0.1:80"; "3306:127.0.0.1:3306"] |}]>
              (<["stage" :=
                   Some {| ssh.Identity := "~/.ssh/id_rsa_stage";
                           ssh.Tunnel := "8080:127.0.0.1:80";
                           ssh.Tunnels := [] |}]>
                 (<["prod" :=
                      Some {| ssh.Identity := "~/.ssh/id_rsa_prod";
                              ssh.Tunnel := "";
                              ssh.Tunnels := [] |}]> ∅)) |};
     global := None; overwrite := false |}.

(** Whether two worlds agree on everything but what has been printed. *)
Definition same_state `{FileSystem} (w w' : World) : Prop :=
  w_fs w' = w_fs w ∧ w_env w' = w_env w ∧ w_config w' = w_config w
  ∧ w_heap w' = w_heap w.

(** ** Further simulated installations *)

(** Variants of the simulated installation in which a library call fails, or
    in which every profile file decodes to a profile with credentials. *)
Module Lab.

#[local] Existing Instance MemFS.file_system.

Definition externals_with
    (marshal : Profile → list Byte.byte * option error)
    (unmarshal : list Byte.byte → Profile → Profile * option error)
    (fetch : list positive → option unit → M (list positive * option error))
    : Externals := {|
  CONFIG_DIR := "/home/ada/.lanes";
  filepath_Join := MemFS.Join;
  filepath_Dir := MemFS.Dir;
  yaml_Marshal := marshal;
  yaml_Unmarshal := unmarshal;
  EC2 := list positive;
  DescribeInstancesInput := unit;
  pkg_FetchServersBy := fetch;
|}.

(** Every input decodes to the credentials [AKIA] and [s3cr3t], the lanes
    of [Sim.lanes] and no region. *)
Definition decodes : Externals :=
  externals_with Sim.Marshal
    (λ _ _, (Sim.profile_with "AKIA" "s3cr3t" "" None, None)) Sim.Fetch.

(** No profile can be marshalled. *)
Definition cannot_marshal : Externals :=
  externals_with (λ _, ([], Some (Sentinel "yaml: cannot marshal")))
    Sim.Unmarshal Sim.Fetch.

(** EC2 cannot be reached. *)
Definition unreachable : Externals :=
  externals_with Sim.Marshal Sim.Unmarshal
    (λ _ _, mret ([], Some (Sentinel "RequestError: send request failed"))).

(** [dev.yml] replaced by a directory with the same permission bits. *)
Definition fs_dir : gmap string MemFS.node :=
  <[Sim.dev_yml := MemFS.dir_node (oct3 6 0 0)]> Sim.fs1.

(** A world in which the server [web1] carries the SSH profile of its lane. *)
Definition tagged_world : World :=
  set_heap (<[1%positive := set_profile (Some Sim.dev_ssh) Sim.web1]> Sim.heap0)
    (Sim.world Sim.fs1 None).

End Lab.

(** ** Permission checks: classification *)

Section PermissionFacts.
Context `{fsys : FileSystem}.

Lemma user_triplet mode :
  Z.shiftr (Z.land mode (oct3 7 0 0)) 6 = user_bits mode.
Proof.
  unfold user_bits.
  change (oct3 7 0 0) with (Z.shiftl (Z.ones 3) 6).
  rewrite Z.shiftr_land, Z.shiftr_shiftl_l by lia.
  change (Z.shiftl (Z.ones 3) (6 - 6)) with (Z.ones 3).
  rewrite Z.land_ones, Z.shiftr_div_pow2 by lia. reflexivity.
Qed.

Lemma group_triplet mode :
  Z.shiftr (Z.land mode (oct3 0 7 0)) 3 = group_bits mode.
Proof.
  unfold group_bits.
  change (oct3 0 7 0) with (Z.shiftl (Z.ones 3) 3).
  rewrite Z.shiftr_land, Z.shiftr_shiftl_l by lia.
  change (Z.shiftl (Z.ones 3) (3 - 3)) with (Z.ones 3).
  rewrite Z.land_ones, Z.shiftr_div_pow2 by lia. reflexivity.
Qed.

Lemma world_triplet mode : Z.land mode (oct3 0 0 7) = world_bits mode.
Proof.
  unfold world_bits. change (oct3 0 0 7) with (Z.ones 3).
  rewrite Z.land_ones by lia. reflexivity.
Qed.

Lemma user_bits_range mode : 0 <= user_bits mode < 8.
Proof. unfold user_bits. apply Z.mod_pos_bound. lia. Qed.

Lemma user_bits_read mode :
  (user_bits mode <=? 3) = negb (owner_can_read mode).
Proof.
  unfold owner_can_read.
  replace (Z.testbit mode 8) with (Z.testbit (user_bits mode) 2).
  - pose proof (user_bits_range mode) as Hr.
    assert (Hc : user_bits mode = 0 ∨ user_bits mode = 1 ∨ user_bits mode = 2
                 ∨ user_bits mode = 3 ∨ user_bits mode = 4 ∨ user_bits mode = 5
                 ∨ user_bits mode = 6 ∨ user_bits mode = 7) by lia.
    destruct Hc as [-> | [-> | [-> | [-> | [-> | [-> | [-> | ->]]]]]]];
      reflexivity.
  - unfold user_bits.
    change 8 with (2 ^ 3) at 1. change 64 with (2 ^ 6).
    rewrite <- Z.shiftr_div_pow2 by lia.
    rewrite Z.mod_pow2_bits_low by lia.
    rewrite Z.shiftr_spec by lia. reflexivity.
Qed.

Lemma CheckPermissions_fatal path fs pStats :
  os_Stat path fs = Ok pStats →
  (CheckPermissions path fs).1 = (user_bits (Mode pStats) <=? 3).
Proof.
  intros Hs. unfold CheckPermissions. rewrite Hs, user_triplet.
  destruct (user_bits (Mode pStats) <=? 3); reflexivity.
Qed.

Lemma CheckPermissions_result path fs pStats :
  os_Stat path fs = Ok pStats →
  is_Some (CheckPermissions path fs).2 ↔
    user_bits (Mode pStats) <= 3 ∨ group_bits (Mode pStats) ≠ 0
    ∨ world_bits (Mode pStats) ≠ 0.
Proof.
  intros Hs. unfold CheckPermissions.
  rewrite Hs, user_triplet, group_triplet, world_triplet.
  destruct (Z.leb_spec (user_bits (Mode pStats)) 3);
    destruct (Z.eqb_spec (group_bits (Mode pStats)) 0);
    destruct (Z.eqb_spec (world_bits (Mode pStats)) 0); simpl;
    (split;
       [ intros Hc; first [lia | destruct Hc as [? Hc]; discriminate]
       | intros Hc; first [by eexists | exfalso; lia] ]).
Qed.

(** C3 (as amended). For every existing path, [CheckPermissions] classifies
    the path as fatal exactly when the owning user lacks read permission:
    the owner's triplet [(mode & 0700) >> 6] is at most 3, which is to say
    that the read bit [0400] is clear. Write and execute permission play
    no part. *)
Theorem CheckPermissions_fatal_iff_owner_cannot_read path fs pStats :
  os_Stat path fs = Ok pStats →
  ((CheckPermissions path fs).1 = true ↔ owner_can_read (Mode pStats) = false)
  ∧ (owner_can_read (Mode pStats) = false ↔ user_bits (Mode pStats) <= 3).
Proof.
  intros Hs. rewrite (CheckPermissions_fatal _ _ _ Hs).
  pose proof (user_bits_read (Mode pStats)) as Hr.
  destruct (Z.leb_spec (user_bits (Mode pStats)) 3) as [Hle | Hgt];
    destruct (owner_can_read (Mode pStats)); simpl in Hr; try discriminate;
    (split; split; intros; first [reflexivity | congruence | lia]).
Qed.

(** C4. For every existing path whose owning user has full access (the
    owner's triplet is [rwx]), [CheckPermissions] does not classify the
    path as fatal, and it reports an error exactly when the group
    permission bits or the world permission bits of the mode are not
    zero. *)
Theorem CheckPermissions_warning_iff_group_or_world path fs pStats :
  os_Stat path fs = Ok pStats →
  user_bits (Mode pStats) = 7 →
  (CheckPermissions path fs).1 = false
  ∧ (is_Some (CheckPermissions path fs).2 ↔
       group_bits (Mode pStats) ≠ 0 ∨ world_bits (Mode pStats) ≠ 0).
Proof.
  intros Hs Hu. split.
  - rewrite (CheckPermissions_fatal _ _ _ Hs), Hu. reflexivity.
  - rewrite (CheckPermissions_result _ _ _ Hs), Hu. intuition lia.
Qed.

Lemma CheckPermissions_stat_error path fs e :
  os_Stat path fs = Err e →
  CheckPermissions path fs = (true, Some (multierror.Append None [Some e])).
Proof. intros Hs. unfold CheckPermissions. rewrite Hs. reflexivity. Qed.

End PermissionFacts.

(** ** Validation *)

(** Unfolds the sequencing of [M]. *)
Ltac run_M := unfold mbind, M_bind, mret, M_ret; simpl.

Section ValidateFacts.
Context `{fsys : FileSystem} `{ext : !Externals}.

(** What [Validate] does, by cases. It always returns, and it leaves the
    world as it was. *)
Lemma Validate_cases this w :
  Validate this w =
    (Returned
       (if String.eqb (AWSAccessKeyId this) "" then (this, Some ErrMissingAccessKey)
        else if String.eqb (AWSSecretAccessKey this) "" then (this, Some ErrMissingSecretKey)
        else match global this with
             | Some g =>
                 (if String.eqb (Region this) "" then set_Region (cfg_Region g) this
                  else this, None)
             | None => (set_Region (default "" (w_env w !! "LANES_REGION")) this, None)
             end),
     w).
Proof.
  unfold Validate.
  destruct (String.eqb (AWSAccessKeyId this) ""); [reflexivity |].
  destruct (String.eqb (AWSSecretAccessKey this) ""); [reflexivity |].
  destruct (global this); reflexivity.
Qed.

(** C6. For every profile, [Validate] returns an error exactly when a
    credential field is empty: [ErrMissingAccessKey] when
    [AWSAccessKeyId] is empty, [ErrMissingSecretKey] when [AWSAccessKeyId]
    is not empty but [AWSSecretAccessKey] is, and [nil] when neither is
    empty. *)
Theorem Validate_error_iff_missing_credential this w :
  ∃ this' err,
    Validate this w = (Returned (this', err), w)
    ∧ (AWSAccessKeyId this = "" → err = Some ErrMissingAccessKey)
    ∧ (AWSAccessKeyId this ≠ "" → AWSSecretAccessKey this = "" →
       err = Some ErrMissingSecretKey)
    ∧ (AWSAccessKeyId this ≠ "" → AWSSecretAccessKey this ≠ "" → err = None)
    ∧ (is_Some err ↔ AWSAccessKeyId this = "" ∨ AWSSecretAccessKey this = "").
Proof.
  rewrite Validate_cases.
  destruct (String.eqb_spec (AWSAccessKeyId this) "") as [Hk | Hk].
  { eexists _, _. split; [reflexivity |].
    repeat split; intros; try congruence; eauto. }
  destruct (String.eqb_spec (AWSSecretAccessKey this) "") as [Hs | Hs].
  { eexists _, _. split; [reflexivity |].
    repeat split; intros; try congruence; eauto. }
  assert (Hnone : ¬ is_Some (@None error)) by (intros [? ?]; discriminate).
  destruct (global this); eexists _, _; (split; [reflexivity |]);
    repeat split; intros; try congruence; try tauto; exfalso; tauto.
Qed.

(** C10. For every profile, [Validate] modifies no field other than
    [Region]: [AWSAccessKeyId], [AWSSecretAccessKey] and the SSH lane map
    are unchanged (as are the attached global config and the overwrite
    flag), and when [Validate] returns an error the [Region] field is
    unchanged as well. *)
Theorem Validate_frame this w :
  ∃ this' err,
    Validate this w = (Returned (this', err), w)
    ∧ AWSAccessKeyId this' = AWSAccessKeyId this
    ∧ AWSSecretAccessKey this' = AWSSecretAccessKey this
    ∧ ssh.Mods (SSH this') = ssh.Mods (SSH this)
    ∧ global this' = global this
    ∧ overwrite this' = overwrite this
    ∧ (is_Some err → Region this' = Region this).
Proof.
  rewrite Validate_cases.
  assert (Hnone : ∀ P : Prop, is_Some (@None error) → P)
    by (intros P [x Hx]; discriminate Hx).
  destruct (String.eqb (AWSAccessKeyId this) "").
  { eexists _, _. split; [reflexivity |]. tauto. }
  destruct (String.eqb (AWSSecretAccessKey this) "").
  { eexists _, _. split; [reflexivity |]. tauto. }
  destruct (global this) eqn:Hg; [destruct (String.eqb (Region this) "") |];
    eexists _, _; (split; [reflexivity |]); simpl; rewrite ?Hg;
    repeat (split; [reflexivity |]); intros Hc; exact (Hnone _ Hc).
Qed.

(** C1 (as amended). For every profile with both credential fields set,
    [Validate] resolves the region as follows. When a global config is
    attached, a non-empty [Region] is kept and an empty one is replaced by
    the global config's region, whatever that is: [LANES_REGION] is not
    consulted. When no global config is attached and [Region] is empty,
    the value of [LANES_REGION] is used. When a credential field is empty,
    [Validate] returns its error before any region is resolved: the profile
    is handed back as it was. *)
Theorem Validate_region this w :
  (AWSAccessKeyId this ≠ "" →
   AWSSecretAccessKey this ≠ "" →
   ∃ this',
     Validate this w = (Returned (this', None), w)
     ∧ (∀ g, global this = Some g →
          Region this' = if String.eqb (Region this) "" then cfg_Region g
                         else Region this)
     ∧ (global this = None → Region this = "" →
          Region this' = default "" (w_env w !! "LANES_REGION")))
  ∧ (AWSAccessKeyId this = "" ∨ AWSSecretAccessKey this = "" →
     ∃ this' err,
       Validate this w = (Returned (this', Some err), w)
       ∧ Region this' = Region this
       ∧ this' = this).
Proof.
  rewrite Validate_cases. split.
  - intros Hk Hs.
    destruct (String.eqb_spec (AWSAccessKeyId this) ""); [done |].
    destruct (String.eqb_spec (AWSSecretAccessKey this) ""); [done |].
    destruct (global this) as [g |] eqn:Hg.
    + eexists. split; [reflexivity |]. split; [| discriminate].
      intros g' [= <-]. destruct (String.eqb (Region this) ""); reflexivity.
    + eexists. split; [reflexivity |]. split; [discriminate |]. reflexivity.
  - intros Hempty.
    destruct (String.eqb_spec (AWSAccessKeyId this) "") as [Hk | Hk];
      [by eexists _, _ |].
    destruct (String.eqb_spec (AWSSecretAccessKey this) "") as [Hs | Hs];
      [by eexists _, _ |].
    destruct Hempty; done.
Qed.

End ValidateFacts.

(** ** Profile files: permission report, loading, writing *)

Section ProfileFileFacts.
Context `{fsys : FileSystem} `{ext : !Externals}.

(** What [CheckProfilePermissions] does, by cases: of the two assignments
    to [result], the second replaces the first. *)
Lemma CheckProfilePermissions_cases path w :
  let d := CheckPermissions (filepath_Dir path) (w_fs w) in
  let p := CheckPermissions path (w_fs w) in
  let fatal := d.1 || p.1 in
  CheckProfilePermissions path w =
    (if fatal then Exited 1 else Returned (),
     match match p.2 with
           | Some _ => Some (multierror.Append p.2 [])
           | None =>
               match d.2 with
               | Some _ => Some (multierror.Append d.2 [])
               | None => None
               end
           end
     with
     | Some r =>
         add_out (Printf "%s: checking profile permissions, %s\n\n"
                    [PString (if fatal then "ERROR" else "WARNING"); PError r]) w
     | None => w
     end).
Proof.
  unfold CheckProfilePermissions, get_fs. run_M.
  destruct (CheckPermissions (filepath_Dir path) (w_fs w)) as [dFatal dErr].
  destruct (CheckPermissions path (w_fs w)) as [pFatal pErr]. simpl.
  destruct dErr, pErr, dFatal, pFatal; reflexivity.
Qed.

(** The process exits exactly when either check is fatal. *)
Lemma CheckProfilePermissions_exits path w :
  (CheckProfilePermissions path w).1 = Exited 1 ↔
    (CheckPermissions (filepath_Dir path) (w_fs w)).1 = true
    ∨ (CheckPermissions path (w_fs w)).1 = true.
Proof.
  rewrite CheckProfilePermissions_cases. simpl.
  destruct (CheckPermissions (filepath_Dir path) (w_fs w)).1,
           (CheckPermissions path (w_fs w)).1; simpl;
    split; intros Hc; try discriminate; auto; destruct Hc; discriminate.
Qed.

(** Whenever the check of the profile file yields an error, the printed
    message holds the errors of that check only. *)
Lemma CheckProfilePermissions_prints_file_errors path w dFatal dErr pFatal e :
  CheckPermissions (filepath_Dir path) (w_fs w) = (dFatal, dErr) →
  CheckPermissions path (w_fs w) = (pFatal, Some e) →
  w_out (CheckProfilePermissions path w).2 =
    (w_out w ++ [Printf "%s: checking profile permissions, %s\n\n"
                   [PString (if dFatal || pFatal then "ERROR" else "WARNING");
                    PError (multierror.Append (Some e) [])]])%list.
Proof.
  intros Hd Hp. rewrite CheckProfilePermissions_cases, Hd, Hp. reflexivity.
Qed.

(** C9. For every path on which [os.Stat] fails, [CheckPermissions]
    classifies the path as fatal; so [LoadProfile] of a profile whose file
    cannot be inspected (in particular, one that does not exist) prints
    the permission report and ends the process with exit status 1: it
    does not return a read error to its caller. *)
Theorem LoadProfile_exits_when_stat_fails :
  (∀ path fs e, os_Stat path fs = Err e → (CheckPermissions path fs).1 = true)
  ∧ (∀ name w e,
       os_Stat (filepath_Join CONFIG_DIR (name ++ ".yml")) (w_fs w) = Err e →
       ∃ r, LoadProfile name w =
              (Exited 1,
               add_out (Printf "%s: checking profile permissions, %s\n\n"
                          [PString "ERROR"; PError r]) w)).
Proof.
  split.
  - intros path fs e Hs. rewrite (CheckPermissions_stat_error _ _ _ Hs). reflexivity.
  - intros name w e Hs. unfold LoadProfile, GetProfilePath. run_M.
    rewrite CheckProfilePermissions_cases.
    rewrite (CheckPermissions_stat_error _ _ _ Hs). simpl.
    rewrite orb_true_r. simpl. eexists. reflexivity.
Qed.

(** C7. For every profile name, a successful [Write] persists the profile
    as a YAML file at the path [name + ".yml"] under the config directory:
    the bytes are those of [yaml.Marshal], the directories are made by
    [os.MkdirAll] with mode [0700] and the file is written by
    [ioutil.WriteFile] with mode [0600], both without error. *)
Theorem Write_persists this name w w' :
  Write this name w = (Returned None, w') →
  let path := filepath_Join CONFIG_DIR (name ++ ".yml") in
  ∃ out fs1,
    yaml_Marshal this = (out, None)
    ∧ os_MkdirAll (filepath_Dir path) (oct3 7 0 0) (w_fs w) = (fs1, None)
    ∧ ioutil_WriteFile path out (oct3 6 0 0) fs1 = (w_fs w', None)
    ∧ w_out w' = (w_out w ++ [Printf "Profile %q written to %s\n"
                                [PString name; PString path]])%list
    ∧ w_env w' = w_env w ∧ w_config w' = w_config w ∧ w_heap w' = w_heap w.
Proof.
  unfold Write, GetProfilePath, WriteFile, WriteBytes, Stat, MkdirAll,
    ioWriteFile, fmt_Printf.
  run_M. intros Hrun.
  destruct (match os_Stat _ (w_fs w) with Ok _ => true | Err _ => false end
            && negb (overwrite this)); [discriminate |].
  destruct (yaml_Marshal this) as [out [e |]]; [discriminate |].
  destruct (os_MkdirAll _ _ (w_fs w)) as [fs1 [e |]]; [discriminate |].
  simpl in Hrun.
  destruct (ioutil_WriteFile _ out _ fs1) as [fs2 [e |]] eqn:Hw; [discriminate |].
  simpl in Hrun. injection Hrun as <-. eauto 10.
Qed.

(** C8. For every profile whose overwrite flag is unset and every
    destination path at which a file already exists ([os.Stat] succeeds),
    [WriteFile] returns the error that the profile already exists and
    changes nothing, the existing file included. With the flag set by
    [SetOverwrite(true)] the check is passed over: once the profile is
    marshalled and the directory is there, [ioutil.WriteFile] replaces
    the file at the destination with the marshalled bytes, and [WriteFile]
    returns what that call returns. *)
Theorem WriteFile_overwrite_guard this name dest w :
  (∀ pStats,
     os_Stat dest (w_fs w) = Ok pStats →
     overwrite this = false →
     WriteFile this name dest w =
       (Returned (Some (Errorf "profile %q already exists" [AString name])), w))
  ∧ (∀ out fs1 fs2 err,
       yaml_Marshal (SetOverwrite this true) = (out, None) →
       os_MkdirAll (filepath_Dir dest) (oct3 7 0 0) (w_fs w) = (fs1, None) →
       ioutil_WriteFile dest out (oct3 6 0 0) fs1 = (fs2, err) →
       ∃ w', WriteFile (SetOverwrite this true) name dest w = (Returned err, w')
             ∧ w_fs w' = fs2).
Proof.
  split.
  - intros pStats Hs Ho. unfold WriteFile, Stat. run_M. rewrite Hs, Ho. reflexivity.
  - intros out fs1 fs2 err Hm Hd Hw.
    unfold WriteFile, WriteBytes, Stat, MkdirAll, ioWriteFile, fmt_Printf. run_M.
    rewrite andb_false_r, Hm, Hd. simpl. rewrite Hw. simpl.
    destruct err; eexists; split; reflexivity.
Qed.

End ProfileFileFacts.

(** ** Lane tagging of fetched servers *)

Section FetchFacts.
Context `{fsys : FileSystem} `{ext : !Externals}.

Lemma tagged_idemp this s : tagged this (tagged this s) = tagged this s.
Proof. reflexivity. Qed.

Lemma lane_warning_insert this heap p s q :
  heap !! p = Some s →
  lane_warning this (<[p := tagged this s]> heap) q = lane_warning this heap q.
Proof.
  intros Hp. unfold lane_warning.
  destruct (decide (p = q)) as [<- | Hne].
  - rewrite lookup_insert_eq, Hp. simpl.
    destruct (ssh.Mods (SSH this) !! Lane s); reflexivity.
  - rewrite lookup_insert_ne by done. reflexivity.
Qed.

Lemma lane_warnings_insert this heap p s (servers : list positive) :
  heap !! p = Some s →
  omap (lane_warning this (<[p := tagged this s]> heap)) servers
  = omap (lane_warning this heap) servers.
Proof.
  intros Hp. apply list_omap_ext.
  induction servers as [| q rest IH]; constructor;
    [by apply lane_warning_insert | exact IH].
Qed.

Lemma omap_cons_option_list {A B} (f : A → option B) (x : A) (l : list A) :
  omap f (x :: l) = (option_list (f x) ++ omap f l)%list.
Proof. csimpl. destruct (f x); reflexivity. Qed.

(** One turn of the loop: the server is tagged in place, and a warning is
    printed when its lane has no entry. *)
Lemma tag_server_run this p s w :
  w_heap w !! p = Some s →
  ∃ w1, tag_server this p w = (Returned (), w1)
    ∧ w_heap w1 = <[p := tagged this s]> (w_heap w)
    ∧ w_out w1 = (w_out w ++ option_list (lane_warning this (w_heap w) p))%list
    ∧ w_fs w1 = w_fs w ∧ w_env w1 = w_env w ∧ w_config w1 = w_config w.
Proof.
  intros Hp. unfold tag_server, load, store, fmt_Printf, lane_warning. run_M.
  rewrite Hp. simpl. unfold tagged, lane_profile.
  destruct (ssh.Mods (SSH this) !! Lane s) as [v |]; simpl.
  - eexists. split; [reflexivity |]. simpl. rewrite app_nil_r. done.
  - eexists. split; [reflexivity |]. done.
Qed.

Lemma tag_servers_run this (servers : list positive) : ∀ w,
  Forall (λ p, is_Some (w_heap w !! p)) servers →
  ∃ w', tag_servers this servers w = (Returned (), w')
    ∧ (∀ p, w_heap w' !! p =
            if decide (p ∈ servers) then tagged this <$> w_heap w !! p
            else w_heap w !! p)
    ∧ w_out w' = (w_out w ++ omap (lane_warning this (w_heap w)) servers)%list
    ∧ w_fs w' = w_fs w ∧ w_env w' = w_env w ∧ w_config w' = w_config w.
Proof.
  induction servers as [| q rest IH]; intros w Hall.
  - eexists. split; [reflexivity |]. simpl. rewrite app_nil_r.
    repeat split.
  - apply Forall_cons in Hall as [[s Hq] Hrest].
    destruct (tag_server_run this q s w Hq) as (w1 & Hrun1 & Hh1 & Ho1 & Hf1 & He1 & Hc1).
    destruct (IH w1) as (w' & Hrun & Hh & Ho & Hf & He & Hc).
    { rewrite Hh1. eapply Forall_impl; [exact Hrest |]. intros p [sp Hsp]. simpl.
      destruct (decide (q = p)) as [<- | Hne].
      - rewrite lookup_insert_eq. eauto.
      - rewrite lookup_insert_ne by done. eauto. }
    exists w'. split.
    { simpl. run_M. rewrite Hrun1. exact Hrun. }
    split; [| split; [| split; [| split]]]; try congruence.
    + intros p. rewrite Hh, Hh1.
      destruct (decide (p = q)) as [-> | Hne].
      * rewrite lookup_insert_eq, Hq, (decide_True (P := q ∈ q :: rest))
          by apply list_elem_of_here.
        destruct (decide (q ∈ rest)); reflexivity.
      * rewrite lookup_insert_ne by done.
        destruct (decide (p ∈ rest)) as [Hin | Hnin].
        -- rewrite decide_True by (by apply list_elem_of_further). reflexivity.
        -- rewrite decide_False; [reflexivity |].
           intros [? | ?]%elem_of_cons; done.
    + rewrite Ho, Ho1, Hh1, (lane_warnings_insert _ _ _ _ _ Hq), <- app_assoc.
      rewrite omap_cons_option_list. reflexivity.
Qed.

(** C5. For every profile and every successfully fetched list of
    (allocated) servers, the method [FetchServersBy] returns a [nil] error
    and the fetched list itself, whether or not every lane has an entry
    in the profile's lane map. Each server of the list is tagged, in
    place: afterwards its [profile] field is the SSH profile that the lane
    map holds for its lane, and [nil] when the map holds none; its lane and
    its attributes are as they were, and no other server is touched. A lane
    without entry costs one printed warning per server, and nothing more. *)
Theorem FetchServersBy_tags_and_warns this svc input w w1 servers :
  pkg_FetchServersBy svc input w = (Returned (servers, None), w1) →
  Forall (λ p, is_Some (w_heap w1 !! p)) servers →
  ∃ w2,
    FetchServersBy this svc input w = (Returned (servers, None), w2)
    ∧ (∀ p s, p ∈ servers → w_heap w1 !! p = Some s →
         ∃ s', w_heap w2 !! p = Some s'
           ∧ (∀ v, ssh.Mods (SSH this) !! Lane s = Some v → profile s' = v)
           ∧ (ssh.Mods (SSH this) !! Lane s = None → profile s' = None)
           ∧ Lane s' = Lane s
           ∧ Attributes s' = Attributes s)
    ∧ (∀ p, p ∉ servers → w_heap w2 !! p = w_heap w1 !! p)
    ∧ w_out w2 = (w_out w1 ++ omap (lane_warning this (w_heap w1)) servers)%list
    ∧ w_fs w2 = w_fs w1 ∧ w_env w2 = w_env w1 ∧ w_config w2 = w_config w1.
Proof.
  intros Hfetch Hall.
  destruct (tag_servers_run this servers w1 Hall)
    as (w2 & Hrun & Hh & Ho & Hf & He & Hc).
  exists w2. split.
  { unfold FetchServersBy. run_M. rewrite Hfetch, Hrun. reflexivity. }
  split; [| split; [| by repeat split]].
  - intros p s Hin Hp. exists (tagged this s).
    split; [rewrite Hh, decide_True, Hp by done; reflexivity |].
    unfold tagged, lane_profile. simpl.
    split; [intros v ->; reflexivity |].
    split; [intros ->; reflexivity |]. split; reflexivity.
  - intros p Hnin. rewrite Hh, decide_False by done. reflexivity.
Qed.

End FetchFacts.

(** ** Permission checks: what they depend on and what they accept *)

Section PermissionExtras.
Context `{fsys : FileSystem}.

Lemma land_low9 m c :
  Z.land (Z.ones 9) c = c → Z.land m c = Z.land (m mod 512) c.
Proof.
  intros Hc. change 512 with (2 ^ 9). rewrite <- Z.land_ones by lia.
  rewrite <- Z.land_assoc, Hc. reflexivity.
Qed.

Lemma user_bits_low9 m : user_bits m = user_bits (m mod 512).
Proof.
  rewrite <- !user_triplet. f_equal. apply land_low9. reflexivity.
Qed.

Lemma group_bits_low9 m : group_bits m = group_bits (m mod 512).
Proof.
  rewrite <- !group_triplet. f_equal. apply land_low9. reflexivity.
Qed.

Lemma world_bits_low9 m : world_bits m = world_bits (m mod 512).
Proof.
  rewrite <- !world_triplet. apply land_low9. reflexivity.
Qed.

(** The check of an existing path, written on the three triplets. *)
Lemma CheckPermissions_triplets path fs pStats :
  os_Stat path fs = Ok pStats →
  CheckPermissions path fs =
    (user_bits (Mode pStats) <=? 3,
     let r0 :=
       if user_bits (Mode pStats) <=? 3
       then Some (multierror.Append None
                    [Some (Errorf "%s is not user-accessible" [AString path])])
       else None in
     let r1 :=
       if negb (group_bits (Mode pStats) =? 0)
       then Some (multierror.Append r0
                    [Some (Errorf "%s is group-accessible" [AString path])])
       else r0 in
     if negb (world_bits (Mode pStats) =? 0)
     then Some (multierror.Append r1
                  [Some (Errorf "%s is world-accessible" [AString path])])
     else r1).
Proof.
  intros Hs. unfold CheckPermissions.
  rewrite Hs, user_triplet, group_triplet, world_triplet.
  destruct (user_bits (Mode pStats) <=? 3); reflexivity.
Qed.

Lemma CheckPermissions_fatal_has_error path fs :
  (CheckPermissions path fs).1 = true → is_Some (CheckPermissions path fs).2.
Proof.
  destruct (os_Stat path fs) as [pStats | e] eqn:Hs.
  - rewrite (CheckPermissions_fatal _ _ _ Hs), (CheckPermissions_result _ _ _ Hs).
    intros Hle%Z.leb_le. left. exact Hle.
  - rewrite (CheckPermissions_stat_error _ _ _ Hs). intros _. by eexists.
Qed.

Lemma CheckPermissions_clean path fs :
  (CheckPermissions path fs).2 = None ↔
    ∃ pStats, os_Stat path fs = Ok pStats
      ∧ 4 <= user_bits (Mode pStats)
      ∧ group_bits (Mode pStats) = 0
      ∧ world_bits (Mode pStats) = 0.
Proof.
  destruct (os_Stat path fs) as [pStats | e] eqn:Hs.
  - pose proof (CheckPermissions_result _ _ _ Hs) as Hr.
    split.
    + intros Hnone. exists pStats. split; [reflexivity |].
      rewrite Hnone in Hr.
      assert (Hn : ¬ is_Some (@None error)) by (intros [x Hx]; discriminate Hx).
      rewrite Hr in Hn. lia.
    + intros (st & [= <-] & Hu & Hg & Hw).
      destruct (CheckPermissions path fs).2 as [r |] eqn:Hres; [| reflexivity].
      assert (Hsome : is_Some (Some r)) by (by eexists).
      rewrite Hr in Hsome. lia.
  - rewrite (CheckPermissions_stat_error _ _ _ Hs). split; [discriminate |].
    intros (st & Hst & _). discriminate Hst.
Qed.

Lemma CheckPermissions_no_error_not_fatal path fs :
  (CheckPermissions path fs).2 = None → (CheckPermissions path fs).1 = false.
Proof.
  intros Hnone. destruct (CheckPermissions path fs).1 eqn:Hf; [| reflexivity].
  destruct (CheckPermissions_fatal_has_error _ _ Hf) as [x Hx]. congruence.
Qed.

(** X1. Whenever [CheckPermissions] classifies a path as fatal it also
    returns an error, whether the path could be inspected or not: there is
    no fatal verdict without a reason. *)
Theorem CheckPermissions_fatal_reports_error path fs :
  (CheckPermissions path fs).1 = true → is_Some (CheckPermissions path fs).2.
Proof. apply CheckPermissions_fatal_has_error. Qed.

(** X2. [CheckPermissions] returns no error exactly when the path can be
    inspected, its owner can read it (the owner's triplet is 4 or more) and
    neither the group triplet nor the world triplet has a bit set; such a
    path is not fatal. So the modes [0400], [0500], [0600] and [0700] are
    the accepted ones. *)
Theorem CheckPermissions_accepts_iff path fs :
  (CheckPermissions path fs = (false, None) ↔
     ∃ pStats, os_Stat path fs = Ok pStats
       ∧ 4 <= user_bits (Mode pStats)
       ∧ group_bits (Mode pStats) = 0
       ∧ world_bits (Mode pStats) = 0)
  ∧ ((CheckPermissions path fs).2 = None → (CheckPermissions path fs).1 = false).
Proof.
  pose proof (CheckPermissions_no_error_not_fatal path fs) as Hnf.
  split; [| exact Hnf].
  rewrite <- CheckPermissions_clean. split.
  - intros ->. reflexivity.
  - intros Hnone. specialize (Hnf Hnone).
    destruct (CheckPermissions path fs) as [f r]. simpl in *. congruence.
Qed.

(** X3. The verdict on an existing path depends on the nine permission
    bits of its mode only: the file type bits ([os.ModeDir] and the like)
    and the setuid, setgid and sticky bits play no part. Two file systems
    in which the path has the same nine low bits get the same answer. *)
Theorem CheckPermissions_low_nine_bits path fs fs' pStats pStats' :
  os_Stat path fs = Ok pStats →
  os_Stat path fs' = Ok pStats' →
  Mode pStats mod 512 = Mode pStats' mod 512 →
  CheckPermissions path fs = CheckPermissions path fs'.
Proof.
  intros Hs Hs' Hm.
  rewrite (CheckPermissions_triplets _ _ _ Hs), (CheckPermissions_triplets _ _ _ Hs').
  rewrite (user_bits_low9 (Mode pStats)), (group_bits_low9 (Mode pStats)),
    (world_bits_low9 (Mode pStats)), Hm.
  rewrite <- (user_bits_low9 (Mode pStats')), <- (group_bits_low9 (Mode pStats')),
    <- (world_bits_low9 (Mode pStats')).
  reflexivity.
Qed.

End PermissionExtras.

(** ** The permission report: outcomes *)

Section ReportExtras.
Context `{fsys : FileSystem} `{ext : !Externals}.

(** The three ways [CheckProfilePermissions] can end. *)
Lemma CheckProfilePermissions_outcomes path w :
  let d := CheckPermissions (filepath_Dir path) (w_fs w) in
  let p := CheckPermissions path (w_fs w) in
  (d.2 = None ∧ p.2 = None ∧ CheckProfilePermissions path w = (Returned (), w))
  ∨ (d.1 || p.1 = false ∧ ¬ (d.2 = None ∧ p.2 = None)
     ∧ ∃ r, CheckProfilePermissions path w =
              (Returned (),
               add_out (Printf "%s: checking profile permissions, %s\n\n"
                          [PString "WARNING"; PError r]) w))
  ∨ (d.1 || p.1 = true ∧ ¬ (d.2 = None ∧ p.2 = None)
     ∧ ∃ r, CheckProfilePermissions path w =
              (Exited 1,
               add_out (Printf "%s: checking profile permissions, %s\n\n"
                          [PString "ERROR"; PError r]) w)).
Proof.
  intros d p. rewrite CheckProfilePermissions_cases. fold d p.
  pose proof (CheckPermissions_fatal_has_error (filepath_Dir path) (w_fs w)) as Hd.
  pose proof (CheckPermissions_fatal_has_error path (w_fs w)) as Hp.
  fold d in Hd. fold p in Hp.
  assert (Hn : ∀ P : Prop, is_Some (@None error) → P)
    by (intros P [x Hx]; discriminate Hx).
  destruct d as [dFatal [de |]], p as [pFatal [pe |]]; simpl in *.
  - destruct (dFatal || pFatal); [right; right | right; left];
      (split; [reflexivity |]); (split; [intros [Hc _]; discriminate Hc |]);
      eexists; reflexivity.
  - destruct pFatal; [exact (Hn _ (Hp eq_refl)) |]. rewrite orb_false_r.
    destruct dFatal; [right; right | right; left];
      (split; [reflexivity |]); (split; [intros [Hc _]; discriminate Hc |]);
      eexists; reflexivity.
  - destruct dFatal; [exact (Hn _ (Hd eq_refl)) |]. simpl.
    destruct pFatal; [right; right | right; left];
      (split; [reflexivity |]); (split; [intros [_ Hc]; discriminate Hc |]);
      eexists; reflexivity.
  - destruct dFatal; [exact (Hn _ (Hd eq_refl)) |].
    destruct pFatal; [exact (Hn _ (Hp eq_refl)) |].
    left. done.
Qed.

Lemma app_one_neq {A} (l : list A) (x : A) : (l ++ [x])%list ≠ l.
Proof.
  intros Heq. apply (f_equal length) in Heq. rewrite length_app in Heq.
  simpl in Heq. lia.
Qed.

(** X4. [CheckProfilePermissions] never ends the process silently and
    never ends it with any status but 1: when it exits, exactly one message
    has been added to the output, and it is an [ERROR] report. *)
Theorem CheckProfilePermissions_exit_is_reported path w code :
  (CheckProfilePermissions path w).1 = Exited code →
  code = 1
  ∧ ∃ r, (CheckProfilePermissions path w).2 =
           add_out (Printf "%s: checking profile permissions, %s\n\n"
                      [PString "ERROR"; PError r]) w.
Proof.
  destruct (CheckProfilePermissions_outcomes path w)
    as [(_ & _ & ->) | [(_ & _ & r & ->) | (_ & _ & r & ->)]]; simpl;
    intros Hx; try discriminate Hx.
  injection Hx as <-. split; [reflexivity |]. by exists r.
Qed.

(** X5. [CheckProfilePermissions] prints nothing exactly when both the
    directory and the profile file pass [CheckPermissions] without error;
    it then returns to its caller. *)
Theorem CheckProfilePermissions_silent_iff path w :
  (w_out (CheckProfilePermissions path w).2 = w_out w ↔
     (CheckPermissions (filepath_Dir path) (w_fs w)).2 = None
     ∧ (CheckPermissions path (w_fs w)).2 = None)
  ∧ (w_out (CheckProfilePermissions path w).2 = w_out w →
     CheckProfilePermissions path w = (Returned (), w)).
Proof.
  destruct (CheckProfilePermissions_outcomes path w)
    as [(Hd & Hp & Hrun) | [(_ & Hne & r & Hrun) | (_ & Hne & r & Hrun)]];
    rewrite Hrun; simpl.
  - split; [split; done | done].
  - split; [split |]; intros Hc; first [by apply app_one_neq in Hc | done].
  - split; [split |]; intros Hc; first [by apply app_one_neq in Hc | done].
Qed.

(** X6. [CheckProfilePermissions] only inspects: however it ends, the file
    system, the environment, the configuration and the servers are as they
    were; and it never panics. *)
Theorem CheckProfilePermissions_inspects_only path w :
  same_state w (CheckProfilePermissions path w).2
  ∧ (CheckProfilePermissions path w).1 ≠ Panicked.
Proof.
  destruct (CheckProfilePermissions_outcomes path w)
    as [(_ & _ & ->) | [(_ & _ & r & ->) | (_ & _ & r & ->)]]; simpl;
    (split; [by repeat split | discriminate]).
Qed.

(** X7. When the profile file passes its check without error and the
    directory does not, the errors about the directory are all printed:
    the message names exactly the errors of the directory check. *)
Theorem CheckProfilePermissions_prints_directory_errors path w dFatal e :
  CheckPermissions (filepath_Dir path) (w_fs w) = (dFatal, Some e) →
  (CheckPermissions path (w_fs w)).2 = None →
  w_out (CheckProfilePermissions path w).2 =
    (w_out w ++ [Printf "%s: checking profile permissions, %s\n\n"
                   [PString (if dFatal then "ERROR" else "WARNING");
                    PError (multierror.Append (Some e) [])]])%list.
Proof.
  intros Hd Hp. rewrite CheckProfilePermissions_cases, Hd.
  destruct (CheckPermissions path (w_fs w)) as [pFatal pErr] eqn:Hpc.
  simpl in Hp. subst pErr.
  assert (Hpf : pFatal = false).
  { destruct pFatal; [| reflexivity].
    pose proof (CheckPermissions_fatal_has_error path (w_fs w)) as Hh.
    rewrite Hpc in Hh. destruct (Hh eq_refl) as [x Hx]. discriminate Hx. }
  subst pFatal. simpl. rewrite orb_false_r. reflexivity.
Qed.

(** X8. The modes that [WriteFile] asks for pass the check: when the
    directory's permission bits are [0700] and the profile's are [0600],
    [CheckProfilePermissions] prints nothing and returns. *)
Theorem CheckProfilePermissions_accepts_written_modes path w dStats pStats :
  os_Stat (filepath_Dir path) (w_fs w) = Ok dStats →
  Mode dStats mod 512 = oct3 7 0 0 →
  os_Stat path (w_fs w) = Ok pStats →
  Mode pStats mod 512 = oct3 6 0 0 →
  CheckProfilePermissions path w = (Returned (), w).
Proof.
  intros Hd Hdm Hp Hpm. rewrite CheckProfilePermissions_cases.
  rewrite (CheckPermissions_triplets _ _ _ Hd), (CheckPermissions_triplets _ _ _ Hp).
  rewrite (user_bits_low9 (Mode dStats)), (group_bits_low9 (Mode dStats)),
    (world_bits_low9 (Mode dStats)), Hdm.
  rewrite (user_bits_low9 (Mode pStats)), (group_bits_low9 (Mode pStats)),
    (world_bits_low9 (Mode pStats)), Hpm.
  reflexivity.
Qed.

End ReportExtras.

(** ** Validation and loading *)

Section LoadExtras.
Context `{fsys : FileSystem} `{ext : !Externals}.

(** X9. [Validate] is idempotent: validating the profile it hands back, in
    the same environment, hands back the same profile and the same
    error. *)
Theorem Validate_idempotent this w this' err :
  Validate this w = (Returned (this', err), w) →
  Validate this' w = (Returned (this', err), w).
Proof.
  rewrite (Validate_cases this), (Validate_cases this').
  destruct (String.eqb (AWSAccessKeyId this) "") eqn:Hk.
  { intros [= <- <-]. rewrite Hk. reflexivity. }
  destruct (String.eqb (AWSSecretAccessKey this) "") eqn:Hs.
  { intros [= <- <-]. rewrite Hk, Hs. reflexivity. }
  destruct (global this) as [g |] eqn:Hg.
  - destruct (String.eqb (Region this) "") eqn:Hr; intros [= <- <-]; simpl;
      rewrite Hk, Hs, Hg.
    + destruct (String.eqb (cfg_Region g) ""); reflexivity.
    + rewrite Hr. reflexivity.
  - intros [= <- <-]. simpl. rewrite Hk, Hs, Hg. reflexivity.
Qed.

(** What [LoadProfileBytes] does, by cases. It always returns, with a
    profile that is not [nil], and it leaves the world as it was. *)
Lemma LoadProfileBytes_cases input w :
  LoadProfileBytes input w =
    (Returned
       (match yaml_Unmarshal input new_Profile with
        | (p0, Some e) =>
            (Some p0, Some (Errorf "unable to parse lane profile: %s" [AError e]))
        | (p0, None) =>
            let p1 := set_global (w_config w) p0 in
            if String.eqb (AWSAccessKeyId p0) ""
            then (Some p1, Some (Errorf "invalid profile: %s" [AError ErrMissingAccessKey]))
            else if String.eqb (AWSSecretAccessKey p0) ""
            then (Some p1, Some (Errorf "invalid profile: %s" [AError ErrMissingSecretKey]))
            else
              (Some (match w_config w with
                     | Some g =>
                         if String.eqb (Region p0) "" then set_Region (cfg_Region g) p1
                         else p1
                     | None =>
                         set_Region (default "" (w_env w !! "LANES_REGION")) p1
                     end), None)
        end), w).
Proof.
  unfold LoadProfileBytes.
  destruct (yaml_Unmarshal input new_Profile) as [p0 [e |]]; [reflexivity |].
  unfold get_config. run_M. rewrite Validate_cases. simpl.
  destruct (String.eqb (AWSAccessKeyId p0) ""); [reflexivity |].
  destruct (String.eqb (AWSSecretAccessKey p0) ""); [reflexivity |].
  destruct (w_config w); reflexivity.
Qed.

(** X10. A profile that [LoadProfileBytes] returns without error has both
    credential fields set; they, the lane map and the overwrite flag are
    those that [yaml.Unmarshal] decoded; the package's configuration is
    attached; and when that configuration is present, the region is the
    decoded one, or the configuration's when the decoded one is empty. The
    world is left as it was. *)
Theorem LoadProfileBytes_success input w prof w' :
  LoadProfileBytes input w = (Returned (prof, None), w') →
  w' = w
  ∧ ∃ p0 p,
      yaml_Unmarshal input new_Profile = (p0, None)
      ∧ prof = Some p
      ∧ AWSAccessKeyId p = AWSAccessKeyId p0 ∧ AWSAccessKeyId p ≠ ""
      ∧ AWSSecretAccessKey p = AWSSecretAccessKey p0 ∧ AWSSecretAccessKey p ≠ ""
      ∧ SSH p = SSH p0
      ∧ overwrite p = overwrite p0
      ∧ global p = w_config w
      ∧ (∀ g, w_config w = Some g →
           Region p = if String.eqb (Region p0) "" then cfg_Region g else Region p0).
Proof.
  rewrite LoadProfileBytes_cases.
  destruct (yaml_Unmarshal input new_Profile) as [p0 [e |]]; [discriminate |].
  simpl.
  destruct (String.eqb_spec (AWSAccessKeyId p0) "") as [| Hk]; [discriminate |].
  destruct (String.eqb_spec (AWSSecretAccessKey p0) "") as [| Hs]; [discriminate |].
  intros [= <- <-]. split; [reflexivity |].
  eexists p0, _. split; [reflexivity |]. split; [reflexivity |].
  destruct (w_config w) as [g |] eqn:Hc.
  - destruct (String.eqb (Region p0) "") eqn:Hr; simpl;
      repeat (split; [done |]); intros g' [= <-]; rewrite ?Hr; reflexivity.
  - simpl. repeat (split; [done |]). discriminate.
Qed.

(** X11. Every error that [LoadProfileBytes] returns is wrapped: either
    the error of [yaml.Unmarshal] under "unable to parse lane profile", in
    which case the profile is returned as decoded and not validated, or one
    of the two sentinel errors of [Validate] under "invalid profile". A
    profile is returned in each case. *)
Theorem LoadProfileBytes_errors_are_wrapped input w prof e w' :
  LoadProfileBytes input w = (Returned (prof, Some e), w') →
  w' = w
  ∧ ((∃ p0 inner,
        yaml_Unmarshal input new_Profile = (p0, Some inner)
        ∧ prof = Some p0
        ∧ e = Errorf "unable to parse lane profile: %s" [AError inner])
     ∨ (∃ p0 inner,
          yaml_Unmarshal input new_Profile = (p0, None)
          ∧ prof = Some (set_global (w_config w) p0)
          ∧ e = Errorf "invalid profile: %s" [AError inner]
          ∧ (inner = ErrMissingAccessKey ∨ inner = ErrMissingSecretKey))).
Proof.
  rewrite LoadProfileBytes_cases.
  destruct (yaml_Unmarshal input new_Profile) as [p0 [inner |]].
  - intros [= <- <- <-]. split; [reflexivity |]. left. by exists p0, inner.
  - simpl. destruct (String.eqb (AWSAccessKeyId p0) "").
    { intros [= <- <- <-]. split; [reflexivity |]. right.
      exists p0, ErrMissingAccessKey. auto. }
    destruct (String.eqb (AWSSecretAccessKey p0) "").
    { intros [= <- <- <-]. split; [reflexivity |]. right.
      exists p0, ErrMissingSecretKey. auto. }
    discriminate.
Qed.

Lemma LoadProfileBytes_ok input w prof w' :
  LoadProfileBytes input w = (Returned (prof, None), w') →
  w' = w
  ∧ ∃ p, prof = Some p ∧ AWSAccessKeyId p ≠ "" ∧ AWSSecretAccessKey p ≠ "".
Proof.
  rewrite LoadProfileBytes_cases.
  destruct (yaml_Unmarshal input new_Profile) as [p0 [e |]]; [discriminate |].
  simpl.
  destruct (String.eqb_spec (AWSAccessKeyId p0) "") as [| Hk]; [discriminate |].
  destruct (String.eqb_spec (AWSSecretAccessKey p0) "") as [| Hs]; [discriminate |].
  intros [= <- <-]. split; [reflexivity |]. eexists. split; [reflexivity |].
  destruct (w_config w); [destruct (String.eqb (Region p0) "") |]; done.
Qed.

(** What [LoadProfile] does once the permission check has let it pass. *)
Lemma LoadProfile_after_check name w w1 :
  CheckProfilePermissions (filepath_Join CONFIG_DIR (name ++ ".yml")) w
    = (Returned (), w1) →
  LoadProfile name w =
    match ioutil_ReadFile (filepath_Join CONFIG_DIR (name ++ ".yml")) (w_fs w1) with
    | Err e => (Returned (None, Some (Errorf "unable to read profile: %s" [AError e])), w1)
    | Ok input => LoadProfileBytes input w1
    end.
Proof.
  intros Hc. unfold LoadProfile, GetProfilePath, ioReadFile. run_M.
  rewrite Hc. simpl.
  destruct (ioutil_ReadFile _ (w_fs w1)); reflexivity.
Qed.

Lemma LoadProfile_when_check_ends name w :
  (CheckProfilePermissions (filepath_Join CONFIG_DIR (name ++ ".yml")) w).1
    ≠ Returned () →
  LoadProfile name w =
    (match (CheckProfilePermissions (filepath_Join CONFIG_DIR (name ++ ".yml")) w).1 with
     | Exited code => Exited code
     | _ => Panicked
     end,
     (CheckProfilePermissions (filepath_Join CONFIG_DIR (name ++ ".yml")) w).2).
Proof.
  intros Hne. unfold LoadProfile, GetProfilePath. run_M.
  destruct (CheckProfilePermissions _ w) as [[[] | code |] w1]; simpl in *;
    [done | reflexivity | reflexivity].
Qed.

(** X12. [LoadProfile] only inspects: however it ends, the file system,
    the environment, the configuration and the servers are as they were. *)
Theorem LoadProfile_inspects_only name w :
  same_state w (LoadProfile name w).2.
Proof.
  destruct (CheckProfilePermissions_outcomes
              (filepath_Join CONFIG_DIR (name ++ ".yml")) w)
    as [(_ & _ & Hrun) | [(_ & _ & r & Hrun) | (_ & _ & r & Hrun)]].
  - rewrite (LoadProfile_after_check _ _ _ Hrun).
    destruct (ioutil_ReadFile _ (w_fs w)); [| by repeat split].
    rewrite LoadProfileBytes_cases. by repeat split.
  - rewrite (LoadProfile_after_check _ _ _ Hrun).
    destruct (ioutil_ReadFile _ _); [| by repeat split].
    rewrite LoadProfileBytes_cases. by repeat split.
  - rewrite LoadProfile_when_check_ends by (rewrite Hrun; discriminate).
    rewrite Hrun. by repeat split.
Qed.

(** X13. When [LoadProfile] returns without error, neither the config
    directory nor the profile file was fatal in the permission check, the
    file at the profile's path could be read, and the profile handed back
    is the one [LoadProfileBytes] makes of its contents: it is not [nil]
    and both of its credential fields are set. *)
Theorem LoadProfile_success name w prof w' :
  LoadProfile name w = (Returned (prof, None), w') →
  (CheckPermissions (filepath_Dir (filepath_Join CONFIG_DIR (name ++ ".yml"))) (w_fs w)).1
    = false
  ∧ (CheckPermissions (filepath_Join CONFIG_DIR (name ++ ".yml")) (w_fs w)).1 = false
  ∧ ∃ input p,
      ioutil_ReadFile (filepath_Join CONFIG_DIR (name ++ ".yml")) (w_fs w) = Ok input
      ∧ LoadProfileBytes input w' = (Returned (Some p, None), w')
      ∧ prof = Some p
      ∧ AWSAccessKeyId p ≠ "" ∧ AWSSecretAccessKey p ≠ "".
Proof.
  intros Hrun.
  assert (Hfs : ∀ w1 input,
            ioutil_ReadFile (filepath_Join CONFIG_DIR (name ++ ".yml")) (w_fs w1)
              = Ok input →
            LoadProfileBytes input w1 = (Returned (prof, None), w') →
            ∃ p, LoadProfileBytes input w' = (Returned (Some p, None), w')
                 ∧ prof = Some p
                 ∧ AWSAccessKeyId p ≠ "" ∧ AWSSecretAccessKey p ≠ "").
  { intros w1 input _ Hb.
    destruct (LoadProfileBytes_ok _ _ _ _ Hb) as (-> & p & -> & Hk & Hs).
    exists p. by rewrite Hb. }
  destruct (CheckProfilePermissions_outcomes
              (filepath_Join CONFIG_DIR (name ++ ".yml")) w)
    as [(Hd & Hp & Hc) | [(Hf & _ & r & Hc) | (_ & _ & r & Hc)]].
  - rewrite (LoadProfile_after_check _ _ _ Hc) in Hrun.
    split; [exact (CheckPermissions_no_error_not_fatal _ _ Hd) |].
    split; [exact (CheckPermissions_no_error_not_fatal _ _ Hp) |].
    destruct (ioutil_ReadFile _ (w_fs w)) as [input | e] eqn:Hr; [| discriminate].
    exists input. destruct (Hfs w input Hr Hrun) as (p & ?). exists p. by split.
  - rewrite (LoadProfile_after_check _ _ _ Hc) in Hrun. simpl in Hrun.
    apply orb_false_elim in Hf as [Hdf Hpf].
    split; [exact Hdf |]. split; [exact Hpf |].
    destruct (ioutil_ReadFile _ (w_fs w)) as [input | e] eqn:Hr; [| discriminate].
    exists input.
    destruct (Hfs (add_out (Printf "%s: checking profile permissions, %s\n\n"
                              [PString "WARNING"; PError r]) w) input Hr Hrun)
      as (p & ?). exists p. by split.
  - rewrite LoadProfile_when_check_ends in Hrun by (rewrite Hc; discriminate).
    rewrite Hc in Hrun. discriminate Hrun.
Qed.

(** X23. When [LoadProfile] returns an error, either the file could not be
    read, in which case no profile is handed back and the error is that of
    [ioutil.ReadFile] under "unable to read profile", or the file was read
    and the profile and the error are those that [LoadProfileBytes] makes
    of its contents. *)
Theorem LoadProfile_errors name w prof e w' :
  LoadProfile name w = (Returned (prof, Some e), w') →
  (prof = None
   ∧ ∃ inner,
       ioutil_ReadFile (filepath_Join CONFIG_DIR (name ++ ".yml")) (w_fs w) = Err inner
       ∧ e = Errorf "unable to read profile: %s" [AError inner])
  ∨ (∃ input p,
       ioutil_ReadFile (filepath_Join CONFIG_DIR (name ++ ".yml")) (w_fs w) = Ok input
       ∧ prof = Some p
       ∧ LoadProfileBytes input w' = (Returned (Some p, Some e), w')).
Proof.
  intros Hrun.
  assert (Hgen : ∀ w1, w_fs w1 = w_fs w →
            match ioutil_ReadFile (filepath_Join CONFIG_DIR (name ++ ".yml")) (w_fs w1) with
            | Err e0 =>
                (Returned (None, Some (Errorf "unable to read profile: %s" [AError e0])), w1)
            | Ok input => LoadProfileBytes input w1
            end = (Returned (prof, Some e), w') →
            (prof = None
             ∧ ∃ inner,
                 ioutil_ReadFile (filepath_Join CONFIG_DIR (name ++ ".yml")) (w_fs w)
                   = Err inner
                 ∧ e = Errorf "unable to read profile: %s" [AError inner])
            ∨ (∃ input p,
                 ioutil_ReadFile (filepath_Join CONFIG_DIR (name ++ ".yml")) (w_fs w)
                   = Ok input
                 ∧ prof = Some p
                 ∧ LoadProfileBytes input w' = (Returned (Some p, Some e), w'))).
  { intros w1 Hfs. rewrite Hfs.
    destruct (ioutil_ReadFile _ (w_fs w)) as [input | inner].
    - intros Hb. right. exists input.
      pose proof Hb as Hb'. rewrite LoadProfileBytes_cases in Hb'.
      injection Hb' as Hres Hw. subst w'.
      destruct prof as [p |].
      + exists p. by rewrite Hb.
      + exfalso. destruct (yaml_Unmarshal input new_Profile) as [p0 [e0 |]];
          [discriminate |]. simpl in Hres.
        destruct (String.eqb (AWSAccessKeyId p0) ""); [discriminate |].
        destruct (String.eqb (AWSSecretAccessKey p0) ""); discriminate.
    - intros [= <- <- <-]. left. split; [reflexivity |]. by exists inner. }
  destruct (CheckProfilePermissions_outcomes
              (filepath_Join CONFIG_DIR (name ++ ".yml")) w)
    as [(_ & _ & Hc) | [(_ & _ & r & Hc) | (_ & _ & r & Hc)]].
  - rewrite (LoadProfile_after_check _ _ _ Hc) in Hrun. by apply (Hgen w).
  - rewrite (LoadProfile_after_check _ _ _ Hc) in Hrun.
    by apply (Hgen (add_out (Printf "%s: checking profile permissions, %s\n\n"
                               [PString "WARNING"; PError r]) w)).
  - rewrite LoadProfile_when_check_ends in Hrun by (rewrite Hc; discriminate).
    rewrite Hc in Hrun. discriminate Hrun.
Qed.

End LoadExtras.

(** ** Writing *)

Section WriteExtras.
Context `{fsys : FileSystem} `{ext : !Externals}.

(** What [WriteFile] does, by cases. *)
Lemma WriteFile_cases this name dest w :
  WriteFile this name dest w =
    if match os_Stat dest (w_fs w) with Ok _ => true | Err _ => false end
       && negb (overwrite this)
    then (Returned (Some (Errorf "profile %q already exists" [AString name])), w)
    else
      match yaml_Marshal this with
      | (_, Some e) => (Returned (Some e), w)
      | (out, None) =>
          match os_MkdirAll (filepath_Dir dest) (oct3 7 0 0) (w_fs w) with
          | (fs1, Some e) => (Returned (Some e), set_fs fs1 w)
          | (fs1, None) =>
              match ioutil_WriteFile dest out (oct3 6 0 0) fs1 with
              | (fs2, Some e) => (Returned (Some e), set_fs fs2 w)
              | (fs2, None) =>
                  (Returned None,
                   add_out (Printf "Profile %q written to %s\n"
                              [PString name; PString dest]) (set_fs fs2 w))
              end
          end
      end.
Proof.
  unfold WriteFile, WriteBytes, Stat, MkdirAll, ioWriteFile, fmt_Printf. run_M.
  destruct (match os_Stat dest (w_fs w) with Ok _ => true | Err _ => false end
            && negb (overwrite this)); [reflexivity |].
  destruct (yaml_Marshal this) as [out [e |]]; [reflexivity |].
  destruct (os_MkdirAll _ _ (w_fs w)) as [fs1 [e |]]; [reflexivity |]. simpl.
  destruct (ioutil_WriteFile _ out _ fs1) as [fs2 [e |]]; reflexivity.
Qed.

(** X14. [WriteFile] always returns to its caller, and it announces a
    written profile exactly when it returns no error: then one line is
    added to the output, otherwise nothing is printed. It never touches
    the environment, the configuration or the servers. *)
Theorem WriteFile_announces_iff_success this name dest w :
  ∃ err w',
    WriteFile this name dest w = (Returned err, w')
    ∧ (err = None →
       w_out w' = (w_out w ++ [Printf "Profile %q written to %s\n"
                                 [PString name; PString dest]])%list)
    ∧ (is_Some err → w_out w' = w_out w)
    ∧ w_env w' = w_env w ∧ w_config w' = w_config w ∧ w_heap w' = w_heap w.
Proof.
  rewrite WriteFile_cases.
  assert (Hn : ∀ P : Prop, is_Some (@None error) → P)
    by (intros P [x Hx]; discriminate Hx).
  destruct (match os_Stat dest (w_fs w) with Ok _ => true | Err _ => false end
            && negb (overwrite this)); [by eexists _, _ |].
  destruct (yaml_Marshal this) as [out [e |]]; [by eexists _, _ |].
  destruct (os_MkdirAll _ _ (w_fs w)) as [fs1 [e |]]; [by eexists _, _ |].
  destruct (ioutil_WriteFile _ out _ fs1) as [fs2 [e |]]; [by eexists _, _ |].
  eexists _, _. split; [reflexivity |]. split; [done |].
  split; [intros Hc; exact (Hn _ Hc) | done].
Qed.

(** X15. When the profile cannot be marshalled, [WriteFile] returns the
    error of [yaml.Marshal] as it is and changes nothing: no directory is
    made and no file is written. (The case in which [WriteFile] refuses
    earlier, because the destination exists and may not be overwritten, is
    set aside.) *)
Theorem WriteFile_marshal_failure this name dest w out e :
  yaml_Marshal this = (out, Some e) →
  (∀ pStats, os_Stat dest (w_fs w) = Ok pStats → overwrite this = true) →
  WriteFile this name dest w = (Returned (Some e), w).
Proof.
  intros Hm Hguard. rewrite WriteFile_cases, Hm.
  destruct (os_Stat dest (w_fs w)) as [pStats | e'] eqn:Hs; [| reflexivity].
  rewrite (Hguard pStats eq_refl). reflexivity.
Qed.

(** X16. An error of [WriteFile] is either its own "already exists"
    refusal or, unwrapped, the error of the library call that failed:
    [yaml.Marshal], [os.MkdirAll] or [ioutil.WriteFile]. In the first two
    cases no file has been written: the file system is as it was, or as
    [os.MkdirAll] left it. *)
Theorem WriteFile_error_provenance this name dest w e w' :
  WriteFile this name dest w = (Returned (Some e), w') →
  (e = Errorf "profile %q already exists" [AString name] ∧ w' = w)
  ∨ (∃ out, yaml_Marshal this = (out, Some e) ∧ w' = w)
  ∨ (∃ out fs1, yaml_Marshal this = (out, None)
       ∧ os_MkdirAll (filepath_Dir dest) (oct3 7 0 0) (w_fs w) = (fs1, Some e)
       ∧ w' = set_fs fs1 w)
  ∨ (∃ out fs1 fs2, yaml_Marshal this = (out, None)
       ∧ os_MkdirAll (filepath_Dir dest) (oct3 7 0 0) (w_fs w) = (fs1, None)
       ∧ ioutil_WriteFile dest out (oct3 6 0 0) fs1 = (fs2, Some e)
       ∧ w' = set_fs fs2 w).
Proof.
  rewrite WriteFile_cases.
  destruct (match os_Stat dest (w_fs w) with Ok _ => true | Err _ => false end
            && negb (overwrite this)).
  { intros [= <- <-]. by left. }
  destruct (yaml_Marshal this) as [out [e1 |]].
  { intros [= <- <-]. right; left. by exists out. }
  destruct (os_MkdirAll _ _ (w_fs w)) as [fs1 [e1 |]] eqn:Hd.
  { intros [= <- <-]. right; right; left. by exists out, fs1. }
  destruct (ioutil_WriteFile _ out _ fs1) as [fs2 [e1 |]] eqn:Hw.
  { intros [= <- <-]. right; right; right. by exists out, fs1, fs2. }
  discriminate.
Qed.

(** X17. [Write] runs no permission check: whatever the permissions of
    the config directory and of the profile file, it returns to its caller
    and never ends the process, and a permission report is never printed.
    It is [WriteFile] at the profile's path. *)
Theorem Write_never_exits this name w :
  Write this name w =
    WriteFile this name (filepath_Join CONFIG_DIR (name ++ ".yml")) w
  ∧ ∃ err w',
      Write this name w = (Returned err, w')
      ∧ (w_out w' = w_out w
         ∨ w_out w' =
             (w_out w ++ [Printf "Profile %q written to %s\n"
                            [PString name;
                             PString (filepath_Join CONFIG_DIR (name ++ ".yml"))]])%list).
Proof.
  assert (Heq : Write this name w =
                WriteFile this name (filepath_Join CONFIG_DIR (name ++ ".yml")) w)
    by reflexivity.
  split; [exact Heq |]. rewrite Heq, WriteFile_cases.
  destruct (match os_Stat _ (w_fs w) with Ok _ => true | Err _ => false end
            && negb (overwrite this)); [eexists _, _; by split; [| left] |].
  destruct (yaml_Marshal this) as [out [e |]]; [eexists _, _; by split; [| left] |].
  destruct (os_MkdirAll _ _ (w_fs w)) as [fs1 [e |]];
    [eexists _, _; by split; [| left] |].
  destruct (ioutil_WriteFile _ out _ fs1) as [fs2 [e |]];
    [eexists _, _; by split; [| left] |].
  eexists _, _. split; [reflexivity |]. by right.
Qed.

End WriteExtras.

(** ** Fetching: errors, warnings, repeated tagging *)

Section FetchExtras.
Context `{fsys : FileSystem} `{ext : !Externals}.

(** X18. When the package-level fetch fails, the method [FetchServersBy]
    hands its error and its server list on as they are, and does nothing
    more: no server is tagged and nothing is printed. *)
Theorem FetchServersBy_fetch_error this svc input w w1 servers e :
  pkg_FetchServersBy svc input w = (Returned (servers, Some e), w1) →
  FetchServersBy this svc input w = (Returned (servers, Some e), w1).
Proof. intros Hfetch. unfold FetchServersBy. run_M. rewrite Hfetch. reflexivity. Qed.

Lemma omap_nil_iff {A B} (f : A → option B) (l : list A) :
  omap f l = [] ↔ ∀ x, x ∈ l → f x = None.
Proof.
  induction l as [| a l IH].
  - split; [intros _ x Hx; by apply elem_of_nil in Hx | reflexivity].
  - rewrite omap_cons_option_list. split.
    + intros Hnil x Hx. apply app_eq_nil in Hnil as [Ha Hl].
      apply elem_of_cons in Hx as [-> | Hx].
      * destruct (f a); [discriminate Ha | reflexivity].
      * by apply IH.
    + intros Hall. rewrite (Hall a) by apply list_elem_of_here. simpl.
      apply IH. intros x Hx. apply Hall. by apply list_elem_of_further.
Qed.

(** X19. After a successful fetch of allocated servers, the method
    [FetchServersBy] prints nothing exactly when the lane of every fetched
    server has an entry in the profile's lane map. *)
Theorem FetchServersBy_quiet_iff_lanes_known this svc input w w1 (servers : list positive) :
  pkg_FetchServersBy svc input w = (Returned (servers, None), w1) →
  Forall (λ p, is_Some (w_heap w1 !! p)) servers →
  w_out (FetchServersBy this svc input w).2 = w_out w1 ↔
    ∀ p s, p ∈ servers → w_heap w1 !! p = Some s →
           is_Some (ssh.Mods (SSH this) !! Lane s).
Proof.
  intros Hfetch Hall.
  destruct (tag_servers_run this servers w1 Hall) as (w2 & Hrun & _ & Ho & _).
  assert (Hm : FetchServersBy this svc input w = (Returned (servers, None), w2))
    by (unfold FetchServersBy; run_M; rewrite Hfetch, Hrun; reflexivity).
  rewrite Hm. simpl. rewrite Ho. split.
  - intros Heq p s Hin Hp.
    rewrite <- (app_nil_r (w_out w1)) in Heq at 2.
    apply app_inv_head in Heq. rewrite omap_nil_iff in Heq.
    specialize (Heq p Hin). unfold lane_warning in Heq. rewrite Hp in Heq.
    simpl in Heq. destruct (ssh.Mods (SSH this) !! Lane s); [by eexists | discriminate].
  - intros Hknown.
    rewrite (proj2 (omap_nil_iff (lane_warning this (w_heap w1)) servers));
      [apply app_nil_r |].
    intros p Hin. unfold lane_warning.
    destruct (w_heap w1 !! p) as [s |] eqn:Hp; [| reflexivity]. simpl.
    destruct (Hknown p s Hin Hp) as [v ->]. reflexivity.
Qed.

(** X20. Tagging again changes nothing: when every fetched server
    already carries the SSH profile that the lane map holds for its lane,
    the method [FetchServersBy] leaves all servers as they were. *)
Theorem FetchServersBy_retagging_is_stable this svc input w w1 (servers : list positive) :
  pkg_FetchServersBy svc input w = (Returned (servers, None), w1) →
  Forall (λ p, is_Some (w_heap w1 !! p)) servers →
  (∀ p s, p ∈ servers → w_heap w1 !! p = Some s →
          profile s = lane_profile this (Lane s)) →
  w_heap (FetchServersBy this svc input w).2 = w_heap w1.
Proof.
  intros Hfetch Hall Htagged.
  destruct (tag_servers_run this servers w1 Hall) as (w2 & Hrun & Hh & _).
  assert (Hm : FetchServersBy this svc input w = (Returned (servers, None), w2))
    by (unfold FetchServersBy; run_M; rewrite Hfetch, Hrun; reflexivity).
  rewrite Hm. simpl. apply map_eq. intros p. rewrite Hh.
  destruct (decide (p ∈ servers)) as [Hin | Hnin]; [| reflexivity].
  destruct (w_heap w1 !! p) as [s |] eqn:Hp; [| reflexivity]. simpl.
  unfold tagged. rewrite <- (Htagged p s Hin Hp). by destruct s.
Qed.

End FetchExtras.

(** ** Activating and deactivating a profile *)

Section EnvironmentExtras.
Context `{fsys : FileSystem}.

(** What [Activate] does, by cases on the two calls of [os.Setenv]. *)
Lemma Activate_cases this w :
  Activate this w =
    (Returned (),
     let w1 :=
       if has_byte NUL (AWSAccessKeyId this) then w
       else set_env (<["AWS_ACCESS_KEY_ID" := AWSAccessKeyId this]> (w_env w)) w in
     if has_byte NUL (AWSSecretAccessKey this) then w1
     else set_env (<["AWS_SECRET_ACCESS_KEY" := AWSSecretAccessKey this]> (w_env w1)) w1).
Proof.
  unfold Activate, os_Setenv. run_M.
  destruct (has_byte NUL (AWSAccessKeyId this));
    destruct (has_byte NUL (AWSSecretAccessKey this)); reflexivity.
Qed.

(** X21. After [Activate] of a profile whose credentials hold no NUL
    byte, [os.Getenv] gives the profile's access key for
    [AWS_ACCESS_KEY_ID] and its secret for [AWS_SECRET_ACCESS_KEY]; every
    other variable, the file system, the configuration, the servers and
    the output are as they were. *)
Theorem Activate_exports_credentials this w :
  has_byte NUL (AWSAccessKeyId this) = false →
  has_byte NUL (AWSSecretAccessKey this) = false →
  ∃ w',
    Activate this w = (Returned (), w')
    ∧ os_Getenv "AWS_ACCESS_KEY_ID" w' = (Returned (AWSAccessKeyId this), w')
    ∧ os_Getenv "AWS_SECRET_ACCESS_KEY" w' = (Returned (AWSSecretAccessKey this), w')
    ∧ (∀ k, k ≠ "AWS_ACCESS_KEY_ID" → k ≠ "AWS_SECRET_ACCESS_KEY" →
            w_env w' !! k = w_env w !! k)
    ∧ w_fs w' = w_fs w ∧ w_config w' = w_config w ∧ w_heap w' = w_heap w
    ∧ w_out w' = w_out w.
Proof.
  intros Hk Hs. rewrite Activate_cases, Hk, Hs. simpl.
  eexists. split; [reflexivity |]. unfold os_Getenv. simpl.
  split; [| split; [| split; [| done]]].
  - rewrite lookup_insert_ne by done. rewrite lookup_insert_eq. reflexivity.
  - rewrite lookup_insert_eq. reflexivity.
  - intros k Hk1 Hk2. rewrite !lookup_insert_ne by done. reflexivity.
Qed.

(** X22. [Deactivate] after [Activate] does not put back what the two
    variables held before: both are unset, whatever they held and whether
    or not [os.Setenv] accepted the credentials. Every other variable, the
    file system, the configuration, the servers and the output are as they
    were before [Activate]. *)
Theorem Deactivate_after_Activate_unsets this w :
  ∃ w1 w2,
    Activate this w = (Returned (), w1)
    ∧ Deactivate this w1 = (Returned (), w2)
    ∧ w_env w2 !! "AWS_ACCESS_KEY_ID" = None
    ∧ w_env w2 !! "AWS_SECRET_ACCESS_KEY" = None
    ∧ os_Getenv "AWS_ACCESS_KEY_ID" w2 = (Returned "", w2)
    ∧ os_Getenv "AWS_SECRET_ACCESS_KEY" w2 = (Returned "", w2)
    ∧ (∀ k, k ≠ "AWS_ACCESS_KEY_ID" → k ≠ "AWS_SECRET_ACCESS_KEY" →
            w_env w2 !! k = w_env w !! k)
    ∧ w_fs w2 = w_fs w ∧ w_config w2 = w_config w ∧ w_heap w2 = w_heap w
    ∧ w_out w2 = w_out w.
Proof.
  rewrite Activate_cases. eexists _, _. split; [reflexivity |].
  split; [reflexivity |]. unfold os_Getenv. simpl.
  assert (H1 : ∀ m : gmap string string,
            delete "AWS_SECRET_ACCESS_KEY" (delete "AWS_ACCESS_KEY_ID" m)
              !! "AWS_ACCESS_KEY_ID" = None).
  { intros m. rewrite lookup_delete_ne by done. apply lookup_delete_eq. }
  assert (H2 : ∀ m : gmap string string,
            delete "AWS_SECRET_ACCESS_KEY" (delete "AWS_ACCESS_KEY_ID" m)
              !! "AWS_SECRET_ACCESS_KEY" = None).
  { intros m. apply lookup_delete_eq. }
  rewrite H1, H2. repeat (split; [reflexivity |]).
  split.
  - intros k Hk1 Hk2. rewrite !lookup_delete_ne by done.
    destruct (has_byte NUL (AWSAccessKeyId this));
      destruct (has_byte NUL (AWSSecretAccessKey this)); simpl;
      rewrite ?lookup_insert_ne by done; reflexivity.
  - destruct (has_byte NUL (AWSAccessKeyId this));
      destruct (has_byte NUL (AWSSecretAccessKey this)); done.
Qed.

End EnvironmentExtras.

(** ** The functions at work on the simulated installation *)

#[local] Existing Instance MemFS.file_system.
#[local] Existing Instance Sim.externals.

(** Decides a closed goal by evaluation. *)
Ltac by_eval :=
  first [ reflexivity | discriminate
        | vm_compute; first [reflexivity | discriminate | congruence] ].

(** C1, the claim as stated, refuted. The profile has both credentials; its
    own region is empty; the attached global config has no region either;
    [LANES_REGION] is [us-east-1]. The fallback order selects [us-east-1],
    [Validate] leaves the region empty: the environment variable is read
    only when no global config is attached. Two more inputs follow. With
    the access key missing and a global region [eu-west-1], [Validate]
    reports the missing key and resolves nothing. With no global config
    attached, a profile region [eu-west-1] is replaced by [us-east-1]. *)
Lemma Validate_region_not_by_fallback_order :
  ¬ (∀ this' err,
       Validate (Sim.profile_with "AKIA" "s3cr3t" "" (Some {| cfg_Region := "" |}))
         (Sim.world Sim.fs1 None) = (Returned (this', err), Sim.world Sim.fs1 None) →
       Region this' =
         region_by_fallback_order
           (Sim.profile_with "AKIA" "s3cr3t" "" (Some {| cfg_Region := "" |}))
           (w_env (Sim.world Sim.fs1 None)))
  ∧ ¬ (∀ this' err,
       Validate (Sim.profile_with "" "s3cr3t" "" (Some {| cfg_Region := "eu-west-1" |}))
         (Sim.world Sim.fs1 None) = (Returned (this', err), Sim.world Sim.fs1 None) →
       Region this' =
         region_by_fallback_order
           (Sim.profile_with "" "s3cr3t" "" (Some {| cfg_Region := "eu-west-1" |}))
           (w_env (Sim.world Sim.fs1 None)))
  ∧ ¬ (∀ this' err,
       Validate (Sim.profile_with "AKIA" "s3cr3t" "eu-west-1" None)
         (Sim.world Sim.fs1 None) = (Returned (this', err), Sim.world Sim.fs1 None) →
       Region this' =
         region_by_fallback_order
           (Sim.profile_with "AKIA" "s3cr3t" "eu-west-1" None)
           (w_env (Sim.world Sim.fs1 None))).
Proof.
  repeat split; intros Hclaim;
    specialize (Hclaim _ _ (Validate_cases _ _));
    vm_compute in Hclaim; discriminate Hclaim.
Qed.

Lemma Validate_region_witness :
  AWSAccessKeyId (Sim.profile_with "AKIA" "s3cr3t" "" (Some {| cfg_Region := "eu-west-1" |})) ≠ ""
  ∧ AWSSecretAccessKey (Sim.profile_with "AKIA" "s3cr3t" "" (Some {| cfg_Region := "eu-west-1" |})) ≠ ""
  ∧ (∃ this',
      Validate (Sim.profile_with "AKIA" "s3cr3t" "" (Some {| cfg_Region := "eu-west-1" |}))
        (Sim.world Sim.fs1 None) = (Returned (this', None), Sim.world Sim.fs1 None)
      ∧ Region this' = "eu-west-1")
  ∧ (∃ this' err,
      Validate (Sim.profile_with "" "s3cr3t" "" (Some {| cfg_Region := "eu-west-1" |}))
        (Sim.world Sim.fs1 None) = (Returned (this', Some err), Sim.world Sim.fs1 None)
      ∧ Region this' = "").
Proof.
  split; [by_eval |]. split; [by_eval |]. split.
  - destruct (proj1 (Validate_region
                (Sim.profile_with "AKIA" "s3cr3t" "" (Some {| cfg_Region := "eu-west-1" |}))
                (Sim.world Sim.fs1 None))) as (this' & Hrun & Hg & _);
      [by_eval | by_eval |].
    exists this'. split; [exact Hrun |]. exact (Hg _ eq_refl).
  - destruct (proj2 (Validate_region
                (Sim.profile_with "" "s3cr3t" "" (Some {| cfg_Region := "eu-west-1" |}))
                (Sim.world Sim.fs1 None)) (or_introl eq_refl))
      as (this' & err & Hrun & Hr & _).
    exists this', err. split; [exact Hrun | exact Hr].
Defined.

(** C2, at a failing input. The config directory is [drwxr-xr-x] and the
    profile [prod.yml] is [-rw-r--r--]. Each of the two checks yields two
    errors, neither is fatal. The message that is printed holds the two
    errors about the file and none about the directory: the second
    assignment to [result] has replaced the first. *)
Theorem CheckProfilePermissions_drops_directory_errors :
  CheckPermissions (filepath_Dir Sim.prod_yml) Sim.fs0 =
    (false,
     Some (MultiError
             [Errorf "%s is group-accessible" [AString Sim.lanes_dir];
              Errorf "%s is world-accessible" [AString Sim.lanes_dir]]))
  ∧ CheckPermissions Sim.prod_yml Sim.fs0 =
    (false,
     Some (MultiError
             [Errorf "%s is group-accessible" [AString Sim.prod_yml];
              Errorf "%s is world-accessible" [AString Sim.prod_yml]]))
  ∧ CheckProfilePermissions Sim.prod_yml (Sim.world Sim.fs0 None) =
    (Returned (),
     add_out
       (Printf "%s: checking profile permissions, %s\n\n"
          [PString "WARNING";
           PError (MultiError
                     [Errorf "%s is group-accessible" [AString Sim.prod_yml];
                      Errorf "%s is world-accessible" [AString Sim.prod_yml]])])
       (Sim.world Sim.fs0 None)).
Proof. repeat split; vm_compute; reflexivity. Qed.

(** C3, the claim as stated, refuted. [dev.yml] is [-rw-------]: its owner
    lacks execute permission, and the path is not fatal. [locked.yml] is
    [--wx------]: its owner has write and execute permission, and the path
    is fatal. So "fatal" is neither "the owner lacks one of read, write,
    execute" nor "the owner lacks all three". *)
Lemma CheckPermissions_fatal_not_iff_lacks_rwx :
  os_Stat Sim.dev_yml Sim.fs1 = Ok {| Mode := oct3 6 0 0 |}
  ∧ ¬ ((CheckPermissions Sim.dev_yml Sim.fs1).1 = true ↔ user_bits (oct3 6 0 0) ≠ 7)
  ∧ os_Stat Sim.locked_yml Sim.fs1 = Ok {| Mode := oct3 3 0 0 |}
  ∧ ¬ ((CheckPermissions Sim.locked_yml Sim.fs1).1 = true ↔ user_bits (oct3 3 0 0) = 0).
Proof.
  split; [by_eval |]. split.
  { intros [_ Hc]. assert (Hf : (CheckPermissions Sim.dev_yml Sim.fs1).1 = true)
      by (apply Hc; by_eval).
    vm_compute in Hf. discriminate Hf. }
  split; [by_eval |].
  intros [Hc _]. assert (Hu : user_bits (oct3 3 0 0) = 0) by (apply Hc; by_eval).
  vm_compute in Hu. discriminate Hu.
Qed.

Lemma CheckPermissions_fatal_iff_owner_cannot_read_witness :
  os_Stat Sim.locked_yml Sim.fs1 = Ok {| Mode := oct3 3 0 0 |}
  ∧ ((CheckPermissions Sim.locked_yml Sim.fs1).1 = true ↔
       owner_can_read (oct3 3 0 0) = false)
  ∧ (owner_can_read (oct3 3 0 0) = false ↔ user_bits (oct3 3 0 0) <= 3).
Proof.
  split; [by_eval |].
  apply (CheckPermissions_fatal_iff_owner_cannot_read (fsys := MemFS.file_system)
           Sim.locked_yml Sim.fs1 {| Mode := oct3 3 0 0 |}).
  by_eval.
Defined.

Lemma CheckPermissions_warning_iff_group_or_world_witness :
  os_Stat Sim.lanes_dir Sim.fs0 = Ok {| Mode := MemFS.ModeDir + oct3 7 5 5 |}
  ∧ user_bits (MemFS.ModeDir + oct3 7 5 5) = 7
  ∧ (CheckPermissions Sim.lanes_dir Sim.fs0).1 = false
  ∧ (is_Some (CheckPermissions Sim.lanes_dir Sim.fs0).2 ↔
       group_bits (MemFS.ModeDir + oct3 7 5 5) ≠ 0
       ∨ world_bits (MemFS.ModeDir + oct3 7 5 5) ≠ 0).
Proof.
  split; [by_eval |]. split; [by_eval |].
  apply (CheckPermissions_warning_iff_group_or_world (fsys := MemFS.file_system)
           Sim.lanes_dir Sim.fs0 {| Mode := MemFS.ModeDir + oct3 7 5 5 |}); by_eval.
Defined.

Lemma FetchServersBy_tags_and_warns_witness :
  pkg_FetchServersBy [1; 2; 1]%positive None (Sim.world Sim.fs1 None) =
    (Returned ([1; 2; 1]%positive, None), Sim.world Sim.fs1 None)
  ∧ Forall (λ p, is_Some (w_heap (Sim.world Sim.fs1 None) !! p)) [1; 2; 1]%positive
  ∧ ∃ w2,
      FetchServersBy (Sim.profile_with "AKIA" "s3cr3t" "" None) [1; 2; 1]%positive None
        (Sim.world Sim.fs1 None) = (Returned ([1; 2; 1]%positive, None), w2)
      ∧ (∃ s', w_heap w2 !! 1%positive = Some s'
           ∧ profile s' = Some Sim.dev_ssh ∧ Lane s' = "dev")
      ∧ (∃ s', w_heap w2 !! 2%positive = Some s'
           ∧ profile s' = None ∧ Lane s' = "qa")
      ∧ w_out w2 =
          [Printf "WARNING: no profile found for %s in lane %q\n"
             [PServer Sim.db1; PString "qa"]].
Proof.
  assert (Hall : Forall (λ p, is_Some (w_heap (Sim.world Sim.fs1 None) !! p))
                   [1; 2; 1]%positive)
    by (repeat constructor; vm_compute; eauto).
  split; [reflexivity |]. split; [exact Hall |].
  destruct (FetchServersBy_tags_and_warns (fsys := MemFS.file_system) (ext := Sim.externals)
              (Sim.profile_with "AKIA" "s3cr3t" "" None) [1; 2; 1]%positive None
              (Sim.world Sim.fs1 None) (Sim.world Sim.fs1 None) [1; 2; 1]%positive
              eq_refl Hall) as (w2 & Hrun & Htag & _ & Hout & _).
  exists w2. split; [exact Hrun |].
  split; [| split].
  - destruct (Htag 1%positive Sim.web1) as (s' & Hs' & Hmatch & _ & Hlane & _);
      [apply list_elem_of_here | reflexivity |].
    exists s'. split; [exact Hs' |]. split; [| exact Hlane].
    apply Hmatch. reflexivity.
  - destruct (Htag 2%positive Sim.db1) as (s' & Hs' & _ & Hnone & Hlane & _);
      [apply list_elem_of_further, list_elem_of_here | reflexivity |].
    exists s'. split; [exact Hs' |]. split; [| exact Hlane].
    apply Hnone. reflexivity.
  - rewrite Hout. reflexivity.
Defined.

Lemma Validate_error_iff_missing_credential_witness :
  (∃ this', Validate (Sim.profile_with "" "s3cr3t" "" None) (Sim.world Sim.fs1 None)
            = (Returned (this', Some ErrMissingAccessKey), Sim.world Sim.fs1 None))
  ∧ (∃ this', Validate (Sim.profile_with "AKIA" "" "" None) (Sim.world Sim.fs1 None)
              = (Returned (this', Some ErrMissingSecretKey), Sim.world Sim.fs1 None))
  ∧ (∃ this', Validate (Sim.profile_with "AKIA" "s3cr3t" "" None) (Sim.world Sim.fs1 None)
              = (Returned (this', None), Sim.world Sim.fs1 None)).
Proof.
  split; [| split].
  - destruct (Validate_error_iff_missing_credential
                (Sim.profile_with "" "s3cr3t" "" None) (Sim.world Sim.fs1 None))
      as (this' & err & Hrun & Hkey & _).
    exists this'. rewrite Hrun, (Hkey eq_refl). reflexivity.
  - destruct (Validate_error_iff_missing_credential
                (Sim.profile_with "AKIA" "" "" None) (Sim.world Sim.fs1 None))
      as (this' & err & Hrun & _ & Hsecret & _).
    exists this'. rewrite Hrun, Hsecret; [reflexivity | by_eval | reflexivity].
  - destruct (Validate_error_iff_missing_credential
                (Sim.profile_with "AKIA" "s3cr3t" "" None) (Sim.world Sim.fs1 None))
      as (this' & err & Hrun & _ & _ & Hboth & _).
    exists this'. rewrite Hrun, Hboth; [reflexivity | by_eval | by_eval].
Defined.

Lemma Validate_frame_witness :
  ∃ this',
    Validate (Sim.profile_with "AKIA" "" "eu-west-1" None) (Sim.world Sim.fs1 None)
      = (Returned (this', Some ErrMissingSecretKey), Sim.world Sim.fs1 None)
    ∧ AWSAccessKeyId this' = "AKIA"
    ∧ AWSSecretAccessKey this' = ""
    ∧ ssh.Mods (SSH this') = ssh.Mods Sim.lanes
    ∧ Region this' = "eu-west-1".
Proof.
  destruct (Validate_frame (Sim.profile_with "AKIA" "" "eu-west-1" None)
              (Sim.world Sim.fs1 None))
    as (this' & err & Hrun & Hk & Hs & Hm & _ & _ & Hr).
  assert (Hv : Validate (Sim.profile_with "AKIA" "" "eu-west-1" None)
                 (Sim.world Sim.fs1 None) =
               (Returned (Sim.profile_with "AKIA" "" "eu-west-1" None,
                          Some ErrMissingSecretKey), Sim.world Sim.fs1 None))
    by (rewrite Validate_cases; reflexivity).
  assert (Herr : err = Some ErrMissingSecretKey)
    by (rewrite Hv in Hrun; injection Hrun as _ Herr; symmetry; exact Herr).
  exists this'. rewrite Hrun, Herr.
  split; [reflexivity |]. split; [exact Hk |]. split; [exact Hs |].
  split; [exact Hm |]. apply Hr. rewrite Herr. eexists. reflexivity.
Defined.

Lemma LoadProfile_exits_when_stat_fails_witness :
  os_Stat "/home/ada/.lanes/missing.yml" Sim.fs1 =
    Err (PathError "stat" "/home/ada/.lanes/missing.yml" "no such file or directory")
  ∧ (CheckPermissions "/home/ada/.lanes/missing.yml" Sim.fs1).1 = true
  ∧ ∃ r, LoadProfile "missing" (Sim.world Sim.fs1 None) =
           (Exited 1,
            add_out (Printf "%s: checking profile permissions, %s\n\n"
                       [PString "ERROR"; PError r]) (Sim.world Sim.fs1 None)).
Proof.
  assert (Hs : os_Stat "/home/ada/.lanes/missing.yml" Sim.fs1 =
               Err (PathError "stat" "/home/ada/.lanes/missing.yml"
                      "no such file or directory")) by by_eval.
  split; [exact Hs |].
  destruct (LoadProfile_exits_when_stat_fails (fsys := MemFS.file_system) (ext := Sim.externals))
    as [Hfatal Hexit].
  split.
  - exact (Hfatal _ _ _ Hs).
  - exact (Hexit "missing" (Sim.world Sim.fs1 None) _ Hs).
Defined.

Lemma Write_persists_witness :
  Write (Sim.profile_with "AKIA" "s3cr3t" "" None) "dev" (Sim.world Sim.fs_fresh None) =
    (Returned None,
     (Write (Sim.profile_with "AKIA" "s3cr3t" "" None) "dev"
        (Sim.world Sim.fs_fresh None)).2)
  ∧ (∃ out fs1,
       yaml_Marshal (Sim.profile_with "AKIA" "s3cr3t" "" None) = (out, None)
       ∧ os_MkdirAll Sim.lanes_dir (oct3 7 0 0) Sim.fs_fresh = (fs1, None)
       ∧ os_Stat Sim.lanes_dir Sim.fs_fresh =
           Err (PathError "stat" Sim.lanes_dir "no such file or directory")
       ∧ os_Stat Sim.lanes_dir fs1 = Ok {| Mode := MemFS.ModeDir + oct3 7 0 0 |}
       ∧ ioutil_WriteFile Sim.dev_yml out (oct3 6 0 0) fs1 =
           (w_fs (Write (Sim.profile_with "AKIA" "s3cr3t" "" None) "dev"
                    (Sim.world Sim.fs_fresh None)).2, None)
       ∧ os_Stat Sim.dev_yml
           (w_fs (Write (Sim.profile_with "AKIA" "s3cr3t" "" None) "dev"
                    (Sim.world Sim.fs_fresh None)).2) = Ok {| Mode := oct3 6 0 0 |}
       ∧ ioutil_ReadFile Sim.dev_yml
           (w_fs (Write (Sim.profile_with "AKIA" "s3cr3t" "" None) "dev"
                    (Sim.world Sim.fs_fresh None)).2) = Ok out).
Proof.
  assert (Hrun : Write (Sim.profile_with "AKIA" "s3cr3t" "" None) "dev"
                   (Sim.world Sim.fs_fresh None) =
                 (Returned None,
                  (Write (Sim.profile_with "AKIA" "s3cr3t" "" None) "dev"
                     (Sim.world Sim.fs_fresh None)).2)) by by_eval.
  split; [exact Hrun |].
  destruct (Write_persists (fsys := MemFS.file_system) (ext := Sim.externals) _ _ _ _ Hrun)
    as (out & fs1 & Hm & Hd & Hw & _).
  exists out, fs1. split; [exact Hm |]. split; [exact Hd |].
  split; [by_eval |].
  split; [| split; [exact Hw | split]].
  - vm_compute in Hd. injection Hd as <-. by_eval.
  - by_eval.
  - vm_compute in Hm. injection Hm as <-. by_eval.
Defined.

Lemma WriteFile_overwrite_guard_witness :
  os_Stat Sim.dev_yml Sim.fs1 = Ok {| Mode := oct3 6 0 0 |}
  ∧ WriteFile (Sim.profile_with "AKIA" "s3cr3t" "" None) "dev" Sim.dev_yml
      (Sim.world Sim.fs1 None) =
      (Returned (Some (Errorf "profile %q already exists" [AString "dev"])),
       Sim.world Sim.fs1 None)
  ∧ ∃ w',
      WriteFile (SetOverwrite (Sim.profile_with "AKIA" "s3cr3t" "" None) true) "dev"
        Sim.dev_yml (Sim.world Sim.fs1 None) = (Returned None, w')
      ∧ ioutil_ReadFile Sim.dev_yml (w_fs w') =
          Ok (yaml_Marshal (SetOverwrite (Sim.profile_with "AKIA" "s3cr3t" "" None) true)).1
      ∧ ioutil_ReadFile Sim.dev_yml Sim.fs1 = Ok [].
Proof.
  destruct (WriteFile_overwrite_guard (fsys := MemFS.file_system) (ext := Sim.externals)
              (Sim.profile_with "AKIA" "s3cr3t" "" None) "dev" Sim.dev_yml
              (Sim.world Sim.fs1 None)) as [Hkeep Hreplace].
  split; [by_eval |]. split.
  - apply (Hkeep {| Mode := oct3 6 0 0 |}); by_eval.
  - assert (Hm : yaml_Marshal
                   (SetOverwrite (Sim.profile_with "AKIA" "s3cr3t" "" None) true) =
                 ((yaml_Marshal
                     (SetOverwrite (Sim.profile_with "AKIA" "s3cr3t" "" None) true)).1,
                  None)) by reflexivity.
    assert (Hd : os_MkdirAll (filepath_Dir Sim.dev_yml) (oct3 7 0 0)
                   (w_fs (Sim.world Sim.fs1 None)) = (Sim.fs1, None)) by reflexivity.
    assert (Hw : ioutil_WriteFile Sim.dev_yml
                   (yaml_Marshal
                      (SetOverwrite (Sim.profile_with "AKIA" "s3cr3t" "" None) true)).1
                   (oct3 6 0 0) Sim.fs1 =
                 ((ioutil_WriteFile Sim.dev_yml
                     (yaml_Marshal
                        (SetOverwrite (Sim.profile_with "AKIA" "s3cr3t" "" None) true)).1
                     (oct3 6 0 0) Sim.fs1).1, None)) by reflexivity.
    destruct (Hreplace _ _ _ _ Hm Hd Hw) as (w' & Hrun & Hfs).
    exists w'. split; [exact Hrun |]. split; [| reflexivity].
    rewrite Hfs. reflexivity.
Defined.

(** ** The further properties at work on the simulated installations *)

Lemma CheckPermissions_fatal_reports_error_witness :
  (CheckPermissions Sim.locked_yml Sim.fs1).1 = true
  ∧ is_Some (CheckPermissions Sim.locked_yml Sim.fs1).2.
Proof.
  split; [reflexivity |].
  apply (CheckPermissions_fatal_reports_error (fsys := MemFS.file_system)).
  reflexivity.
Defined.

Lemma CheckPermissions_low_nine_bits_witness :
  os_Stat Sim.dev_yml Sim.fs1 = Ok {| Mode := oct3 6 0 0 |}
  ∧ os_Stat Sim.dev_yml Lab.fs_dir = Ok {| Mode := MemFS.ModeDir + oct3 6 0 0 |}
  ∧ oct3 6 0 0 mod 512 = (MemFS.ModeDir + oct3 6 0 0) mod 512
  ∧ CheckPermissions Sim.dev_yml Sim.fs1 = CheckPermissions Sim.dev_yml Lab.fs_dir.
Proof.
  split; [reflexivity |]. split; [reflexivity |]. split; [reflexivity |].
  apply (CheckPermissions_low_nine_bits (fsys := MemFS.file_system)
           Sim.dev_yml Sim.fs1 Lab.fs_dir
           {| Mode := oct3 6 0 0 |} {| Mode := MemFS.ModeDir + oct3 6 0 0 |});
    reflexivity.
Defined.

Lemma CheckProfilePermissions_exit_is_reported_witness :
  (CheckProfilePermissions Sim.locked_yml (Sim.world Sim.fs1 None)).1 = Exited 1
  ∧ ∃ r, (CheckProfilePermissions Sim.locked_yml (Sim.world Sim.fs1 None)).2 =
           add_out (Printf "%s: checking profile permissions, %s\n\n"
                      [PString "ERROR"; PError r]) (Sim.world Sim.fs1 None).
Proof.
  split; [reflexivity |].
  apply (CheckProfilePermissions_exit_is_reported (fsys := MemFS.file_system)
           (ext := Sim.externals) Sim.locked_yml (Sim.world Sim.fs1 None) 1).
  reflexivity.
Defined.

Lemma CheckProfilePermissions_prints_directory_errors_witness :
  (CheckPermissions Sim.dev_yml Sim.fs0).2 = None
  ∧ w_out (CheckProfilePermissions Sim.dev_yml (Sim.world Sim.fs0 None)).2 =
      [Printf "%s: checking profile permissions, %s\n\n"
         [PString "WARNING";
          PError (MultiError
                    [Errorf "%s is group-accessible" [AString Sim.lanes_dir];
                     Errorf "%s is world-accessible" [AString Sim.lanes_dir]])]].
Proof.
  split; [reflexivity |].
  apply (CheckProfilePermissions_prints_directory_errors (fsys := MemFS.file_system)
           (ext := Sim.externals) Sim.dev_yml (Sim.world Sim.fs0 None) false
           (MultiError
              [Errorf "%s is group-accessible" [AString Sim.lanes_dir];
               Errorf "%s is world-accessible" [AString Sim.lanes_dir]]));
    reflexivity.
Defined.

Lemma CheckProfilePermissions_accepts_written_modes_witness :
  os_Stat Sim.lanes_dir Sim.fs1 = Ok {| Mode := MemFS.ModeDir + oct3 7 0 0 |}
  ∧ os_Stat Sim.dev_yml Sim.fs1 = Ok {| Mode := oct3 6 0 0 |}
  ∧ CheckProfilePermissions Sim.dev_yml (Sim.world Sim.fs1 None) =
      (Returned (), Sim.world Sim.fs1 None).
Proof.
  split; [reflexivity |]. split; [reflexivity |].
  apply (CheckProfilePermissions_accepts_written_modes (fsys := MemFS.file_system)
           (ext := Sim.externals) Sim.dev_yml (Sim.world Sim.fs1 None)
           {| Mode := MemFS.ModeDir + oct3 7 0 0 |} {| Mode := oct3 6 0 0 |});
    reflexivity.
Defined.

Lemma Validate_idempotent_witness :
  Validate (Sim.profile_with "AKIA" "s3cr3t" "" (Some {| cfg_Region := "eu-west-1" |}))
    (Sim.world Sim.fs1 None) =
    (Returned
       (Sim.profile_with "AKIA" "s3cr3t" "eu-west-1" (Some {| cfg_Region := "eu-west-1" |}),
        None), Sim.world Sim.fs1 None)
  ∧ Validate
      (Sim.profile_with "AKIA" "s3cr3t" "eu-west-1" (Some {| cfg_Region := "eu-west-1" |}))
      (Sim.world Sim.fs1 None) =
    (Returned
       (Sim.profile_with "AKIA" "s3cr3t" "eu-west-1" (Some {| cfg_Region := "eu-west-1" |}),
        None), Sim.world Sim.fs1 None).
Proof.
  assert (Hrun : Validate
            (Sim.profile_with "AKIA" "s3cr3t" "" (Some {| cfg_Region := "eu-west-1" |}))
            (Sim.world Sim.fs1 None) =
          (Returned
             (Sim.profile_with "AKIA" "s3cr3t" "eu-west-1"
                (Some {| cfg_Region := "eu-west-1" |}), None), Sim.world Sim.fs1 None))
    by reflexivity.
  split; [exact Hrun |].
  exact (Validate_idempotent (fsys := MemFS.file_system) _ _ _ _ Hrun).
Defined.

Lemma LoadProfileBytes_success_witness :
  LoadProfileBytes (ext := Lab.decodes) []
    (Sim.world Sim.fs1 (Some {| cfg_Region := "eu-west-1" |})) =
    (Returned
       (Some (Sim.profile_with "AKIA" "s3cr3t" "eu-west-1"
                (Some {| cfg_Region := "eu-west-1" |})), None),
     Sim.world Sim.fs1 (Some {| cfg_Region := "eu-west-1" |}))
  ∧ ∃ p0 p,
      yaml_Unmarshal (Externals := Lab.decodes) [] new_Profile = (p0, None)
      ∧ Some (Sim.profile_with "AKIA" "s3cr3t" "eu-west-1"
                (Some {| cfg_Region := "eu-west-1" |})) = Some p
      ∧ AWSAccessKeyId p ≠ "" ∧ AWSSecretAccessKey p ≠ ""
      ∧ global p = Some {| cfg_Region := "eu-west-1" |}.
Proof.
  assert (Hrun : LoadProfileBytes (ext := Lab.decodes) []
            (Sim.world Sim.fs1 (Some {| cfg_Region := "eu-west-1" |})) =
          (Returned
             (Some (Sim.profile_with "AKIA" "s3cr3t" "eu-west-1"
                      (Some {| cfg_Region := "eu-west-1" |})), None),
           Sim.world Sim.fs1 (Some {| cfg_Region := "eu-west-1" |})))
    by reflexivity.
  split; [exact Hrun |].
  destruct (LoadProfileBytes_success (fsys := MemFS.file_system) (ext := Lab.decodes)
              _ _ _ _ Hrun)
    as (_ & p0 & p & Hu & Hp & _ & Hk & _ & Hs & _ & _ & Hg & _).
  exists p0, p. repeat (split; [assumption |]). exact Hg.
Defined.

Lemma LoadProfileBytes_errors_are_wrapped_witness :
  LoadProfileBytes [] (Sim.world Sim.fs1 None) =
    (Returned
       (Some (set_global None new_Profile),
        Some (Errorf "invalid profile: %s" [AError ErrMissingAccessKey])),
     Sim.world Sim.fs1 None)
  ∧ ∃ inner,
      Errorf "invalid profile: %s" [AError ErrMissingAccessKey] =
        Errorf "unable to parse lane profile: %s" [AError inner]
      ∨ Errorf "invalid profile: %s" [AError ErrMissingAccessKey] =
          Errorf "invalid profile: %s" [AError inner]
        ∧ (inner = ErrMissingAccessKey ∨ inner = ErrMissingSecretKey).
Proof.
  assert (Hrun : LoadProfileBytes [] (Sim.world Sim.fs1 None) =
          (Returned
             (Some (set_global None new_Profile),
              Some (Errorf "invalid profile: %s" [AError ErrMissingAccessKey])),
           Sim.world Sim.fs1 None)) by reflexivity.
  split; [exact Hrun |].
  destruct (LoadProfileBytes_errors_are_wrapped (fsys := MemFS.file_system)
              (ext := Sim.externals) _ _ _ _ _ Hrun)
    as (_ & [(p0 & inner & _ & _ & He) | (p0 & inner & _ & _ & He & Hi)]).
  - exists inner. left. exact He.
  - exists inner. right. split; [exact He | exact Hi].
Defined.

Lemma LoadProfile_success_witness :
  LoadProfile (ext := Lab.decodes) "dev" (Sim.world Sim.fs1 None) =
    (Returned (Some (Sim.profile_with "AKIA" "s3cr3t" "us-east-1" None), None),
     Sim.world Sim.fs1 None)
  ∧ (CheckPermissions Sim.lanes_dir Sim.fs1).1 = false
  ∧ (CheckPermissions Sim.dev_yml Sim.fs1).1 = false
  ∧ ∃ input, ioutil_ReadFile Sim.dev_yml Sim.fs1 = Ok input.
Proof.
  assert (Hrun : LoadProfile (ext := Lab.decodes) "dev" (Sim.world Sim.fs1 None) =
          (Returned (Some (Sim.profile_with "AKIA" "s3cr3t" "us-east-1" None), None),
           Sim.world Sim.fs1 None)) by reflexivity.
  split; [exact Hrun |].
  destruct (LoadProfile_success (fsys := MemFS.file_system) (ext := Lab.decodes)
              _ _ _ _ Hrun) as (Hd & Hp & input & p & Hr & _).
  split; [exact Hd |]. split; [exact Hp |]. exists input. exact Hr.
Defined.

Lemma WriteFile_marshal_failure_witness :
  yaml_Marshal (Externals := Lab.cannot_marshal)
    (Sim.profile_with "AKIA" "s3cr3t" "" None) =
    ([], Some (Sentinel "yaml: cannot marshal"))
  ∧ os_Stat "/home/ada/.lanes/new.yml" Sim.fs1 =
      Err (PathError "stat" "/home/ada/.lanes/new.yml" "no such file or directory")
  ∧ WriteFile (ext := Lab.cannot_marshal) (Sim.profile_with "AKIA" "s3cr3t" "" None)
      "new" "/home/ada/.lanes/new.yml" (Sim.world Sim.fs1 None) =
      (Returned (Some (Sentinel "yaml: cannot marshal")), Sim.world Sim.fs1 None).
Proof.
  split; [reflexivity |]. split; [reflexivity |].
  apply (WriteFile_marshal_failure (fsys := MemFS.file_system)
           (ext := Lab.cannot_marshal) (Sim.profile_with "AKIA" "s3cr3t" "" None)
           "new" "/home/ada/.lanes/new.yml" (Sim.world Sim.fs1 None) []).
  - reflexivity.
  - intros pStats Hs. discriminate Hs.
Defined.

Lemma WriteFile_error_provenance_witness :
  WriteFile (Sim.profile_with "AKIA" "s3cr3t" "" None) "dev" Sim.dev_yml
    (Sim.world Sim.fs1 None) =
    (Returned (Some (Errorf "profile %q already exists" [AString "dev"])),
     Sim.world Sim.fs1 None)
  ∧ ((Errorf "profile %q already exists" [AString "dev"] =
        Errorf "profile %q already exists" [AString "dev"]
      ∧ Sim.world Sim.fs1 None = Sim.world Sim.fs1 None)
     ∨ (∃ out, yaml_Marshal (Sim.profile_with "AKIA" "s3cr3t" "" None) =
                 (out, Some (Errorf "profile %q already exists" [AString "dev"]))
               ∧ Sim.world Sim.fs1 None = Sim.world Sim.fs1 None)
     ∨ (∃ out fs1, yaml_Marshal (Sim.profile_with "AKIA" "s3cr3t" "" None) = (out, None)
          ∧ os_MkdirAll (filepath_Dir Sim.dev_yml) (oct3 7 0 0)
              (w_fs (Sim.world Sim.fs1 None)) =
              (fs1, Some (Errorf "profile %q already exists" [AString "dev"]))
          ∧ Sim.world Sim.fs1 None = set_fs fs1 (Sim.world Sim.fs1 None))
     ∨ (∃ out fs1 fs2,
          yaml_Marshal (Sim.profile_with "AKIA" "s3cr3t" "" None) = (out, None)
          ∧ os_MkdirAll (filepath_Dir Sim.dev_yml) (oct3 7 0 0)
              (w_fs (Sim.world Sim.fs1 None)) = (fs1, None)
          ∧ ioutil_WriteFile Sim.dev_yml out (oct3 6 0 0) fs1 =
              (fs2, Some (Errorf "profile %q already exists" [AString "dev"]))
          ∧ Sim.world Sim.fs1 None = set_fs fs2 (Sim.world Sim.fs1 None))).
Proof.
  assert (Hrun : WriteFile (Sim.profile_with "AKIA" "s3cr3t" "" None) "dev" Sim.dev_yml
            (Sim.world Sim.fs1 None) =
          (Returned (Some (Errorf "profile %q already exists" [AString "dev"])),
           Sim.world Sim.fs1 None)) by reflexivity.
  split; [exact Hrun |].
  exact (WriteFile_error_provenance (fsys := MemFS.file_system) (ext := Sim.externals)
           _ _ _ _ _ _ Hrun).
Defined.

Lemma FetchServersBy_fetch_error_witness :
  pkg_FetchServersBy (Externals := Lab.unreachable) [1; 2]%positive None
    (Sim.world Sim.fs1 None) =
    (Returned ([], Some (Sentinel "RequestError: send request failed")),
     Sim.world Sim.fs1 None)
  ∧ FetchServersBy (ext := Lab.unreachable) (Sim.profile_with "AKIA" "s3cr3t" "" None)
      [1; 2]%positive None (Sim.world Sim.fs1 None) =
    (Returned ([], Some (Sentinel "RequestError: send request failed")),
     Sim.world Sim.fs1 None).
Proof.
  split; [reflexivity |].
  apply (FetchServersBy_fetch_error (fsys := MemFS.file_system) (ext := Lab.unreachable)).
  reflexivity.
Defined.

Lemma FetchServersBy_quiet_iff_lanes_known_witness :
  pkg_FetchServersBy [1]%positive None (Sim.world Sim.fs1 None) =
    (Returned ([1]%positive, None), Sim.world Sim.fs1 None)
  ∧ Forall (λ p, is_Some (w_heap (Sim.world Sim.fs1 None) !! p)) [1]%positive
  ∧ (w_out (FetchServersBy GetSampleProfile [1]%positive None
              (Sim.world Sim.fs1 None)).2 = w_out (Sim.world Sim.fs1 None) ↔
       ∀ p s, p ∈ [1]%positive → w_heap (Sim.world Sim.fs1 None) !! p = Some s →
              is_Some (ssh.Mods (SSH GetSampleProfile) !! Lane s)).
Proof.
  assert (Hall : Forall (λ p, is_Some (w_heap (Sim.world Sim.fs1 None) !! p))
                   [1]%positive)
    by (repeat constructor; vm_compute; eauto).
  split; [reflexivity |]. split; [exact Hall |].
  apply (FetchServersBy_quiet_iff_lanes_known (fsys := MemFS.file_system)
           (ext := Sim.externals) GetSampleProfile [1]%positive None
           (Sim.world Sim.fs1 None) (Sim.world Sim.fs1 None) [1]%positive eq_refl Hall).
Defined.

Lemma FetchServersBy_retagging_is_stable_witness :
  pkg_FetchServersBy [1; 2]%positive None Lab.tagged_world =
    (Returned ([1; 2]%positive, None), Lab.tagged_world)
  ∧ w_heap (FetchServersBy (Sim.profile_with "AKIA" "s3cr3t" "" None)
              [1; 2]%positive None Lab.tagged_world).2 = w_heap Lab.tagged_world.
Proof.
  split; [reflexivity |].
  apply (FetchServersBy_retagging_is_stable (fsys := MemFS.file_system)
           (ext := Sim.externals) (Sim.profile_with "AKIA" "s3cr3t" "" None)
           [1; 2]%positive None Lab.tagged_world Lab.tagged_world [1; 2]%positive eq_refl).
  - repeat constructor; vm_compute; eauto.
  - intros p s Hin Hp.
    apply elem_of_cons in Hin as [-> | Hin];
      [| apply elem_of_cons in Hin as [-> | Hin]; [| by apply elem_of_nil in Hin]];
      vm_compute in Hp; injection Hp as <-; reflexivity.
Defined.

Lemma Activate_exports_credentials_witness :
  has_byte NUL "AKIA" = false
  ∧ has_byte NUL "s3cr3t" = false
  ∧ ∃ w',
      Activate (Sim.profile_with "AKIA" "s3cr3t" "" None) (Sim.world Sim.fs1 None) =
        (Returned (), w')
      ∧ os_Getenv "AWS_ACCESS_KEY_ID" w' = (Returned "AKIA", w')
      ∧ os_Getenv "AWS_SECRET_ACCESS_KEY" w' = (Returned "s3cr3t", w')
      ∧ w_env w' !! "LANES_REGION" = Some "us-east-1".
Proof.
  split; [reflexivity |]. split; [reflexivity |].
  destruct (Activate_exports_credentials (fsys := MemFS.file_system)
              (Sim.profile_with "AKIA" "s3cr3t" "" None) (Sim.world Sim.fs1 None)
              eq_refl eq_refl) as (w' & Hrun & Hk & Hs & Hother & _).
  exists w'. split; [exact Hrun |]. split; [exact Hk |]. split; [exact Hs |].
  rewrite Hother by discriminate. reflexivity.
Defined.

Lemma LoadProfile_errors_witness :
  LoadProfile "dev" (Sim.world Lab.fs_dir None) =
    (Returned
       (None,
        Some (Errorf "unable to read profile: %s"
                [AError (PathError "read" Sim.dev_yml "is a directory")])),
     Sim.world Lab.fs_dir None)
  ∧ ∃ inner,
      ioutil_ReadFile Sim.dev_yml Lab.fs_dir = Err inner
      ∧ Errorf "unable to read profile: %s"
          [AError (PathError "read" Sim.dev_yml "is a directory")] =
        Errorf "unable to read profile: %s" [AError inner].
Proof.
  assert (Hrun : LoadProfile "dev" (Sim.world Lab.fs_dir None) =
          (Returned
             (None,
              Some (Errorf "unable to read profile: %s"
                      [AError (PathError "read" Sim.dev_yml "is a directory")])),
           Sim.world Lab.fs_dir None)) by reflexivity.
  split; [exact Hrun |].
  destruct (LoadProfile_errors (fsys := MemFS.file_system) (ext := Sim.externals)
              _ _ _ _ _ Hrun) as [(_ & inner & Hr & He) | (input & p & _ & Hp & _)].
  - exists inner. split; [exact Hr | exact He].
  - discriminate Hp.
Defined.
